(** * scm-engine: the GitLab webhook handler (cmd/gitlab_server_handlers.go)

    A shallow embedding of [GitLabWebhookHandler] and of the parts of Go's
    [encoding/json] decoder it relies on, with the properties of the
    webhook request pipeline stated and proved over them. *)

From Stdlib Require Import String Ascii List ZArith NArith Bool Lia.
From Stdlib Require Import DecimalString DecimalZ.
From Stdlib Require Import DecimalPos.
From stdpp Require Import base strings gmap.
Import ListNotations.

Set Warnings "-register-all".

Local Open Scope string_scope.
Local Open Scope Z_scope.

(* ===================================================================== *)
(** ** Go [error] values *)
(* ===================================================================== *)

(** The error values the handler creates or passes on.  Collaborators
    (body reader, platform client, configuration parser, [ProcessMR]) may
    return any of them. *)
Inductive error : Type :=
| errors_New (text : string)                    (* errors.New / fmt.Errorf without %w *)
| fmt_Errorf_w (prefix : string) (err : error)  (* fmt.Errorf(prefix + "%w", err) *)
| io_EOF
| io_ErrUnexpectedEOF
| json_SyntaxError (c : ascii) (context : string)
| json_UnmarshalTypeError (value : string) (field : string).

(* ===================================================================== *)
(** ** encoding/json *)
(* ===================================================================== *)

(** The handler decodes the body twice with
    [json.NewDecoder(bytes.NewReader(body)).Decode]: once into the payload
    struct, once into [any].  This module follows Go's decoder: the scanner
    that delimits and validates the first value of the input, the unquoting
    of string literals, and the storing of a value into a struct field or
    into [any]. *)

Module Json.

(** Characters that cannot be written inside a string literal of this file. *)
Definition dquote : ascii := "034"%char.
Definition bslash : ascii := "092"%char.

Definition code (c : ascii) : N := N_of_ascii c.

Definition isSpace (c : ascii) : bool :=
  (c =? " ")%char || (c =? "009")%char || (c =? "013")%char || (c =? "010")%char.

Definition isDigit (c : ascii) : bool :=
  ((48 <=? code c) && (code c <=? 57))%N.

Definition isDigit19 (c : ascii) : bool :=
  ((49 <=? code c) && (code c <=? 57))%N.

Definition isHex (c : ascii) : bool :=
  isDigit c
  || ((97 <=? code c) && (code c <=? 102))%N
  || ((65 <=? code c) && (code c <=? 70))%N.

(** A decoded JSON value.  A number keeps its literal: what it becomes
    depends on the Go type it is stored into. *)
Inductive json : Type :=
| JNull
| JBool (b : bool)
| JNumber (lit : string)
| JString (s : string)
| JArray (elems : list json)
| JObject (members : list (string * json)).

(** *** Rune encoding and string unquoting (decode.go, [unquoteBytes]) *)

Definition byte (n : N) : ascii := ascii_of_N (n mod 256).

(** [utf8.EncodeRune]: surrogates and values above U+10FFFF become U+FFFD. *)
Definition replacementChar : N := 65533.

Definition encodeRune (r : N) : string :=
  let r := if ((55296 <=? r) && (r <? 57344) || (1114111 <? r))%N
           then replacementChar else r in
  if (r <? 128)%N then String (byte r) ""
  else if (r <? 2048)%N then
    String (byte (192 + r / 64)) (String (byte (128 + r mod 64)) "")
  else if (r <? 65536)%N then
    String (byte (224 + r / 4096))
      (String (byte (128 + (r / 64) mod 64)) (String (byte (128 + r mod 64)) ""))
  else
    String (byte (240 + r / 262144))
      (String (byte (128 + (r / 4096) mod 64))
         (String (byte (128 + (r / 64) mod 64)) (String (byte (128 + r mod 64)) ""))).

Definition hexval (c : ascii) : N :=
  if isDigit c then (code c - 48)%N
  else if ((97 <=? code c) && (code c <=? 102))%N then (code c - 87)%N
  else (code c - 55)%N.

(** [getu4] on the text that follows a backslash: [uXXXX]. *)
Definition getu4 (s : string) : option N :=
  match s with
  | String u (String a (String b (String c (String d _)))) =>
      if (u =? "u")%char && isHex a && isHex b && isHex c && isHex d
      then Some (hexval a * 4096 + hexval b * 256 + hexval c * 16 + hexval d)%N
      else None
  | _ => None
  end.

Definition isSurrogate (r : N) : bool := ((55296 <=? r) && (r <? 57344))%N.

(** [utf16.DecodeRune]. *)
Definition utf16_DecodeRune (r1 : N) (r2 : option N) : N :=
  match r2 with
  | Some r2 =>
      if ((55296 <=? r1) && (r1 <? 56320) && (56320 <=? r2) && (r2 <? 57344))%N
      then ((r1 - 55296) * 1024 + (r2 - 56320) + 65536)%N
      else replacementChar
  | None => replacementChar
  end.

Definition inRange (lo hi : N) (c : ascii) : bool :=
  ((lo <=? code c) && (code c <=? hi))%N.

(** Length of the well-formed UTF-8 sequence at the head of [s], 0 when the
    first byte does not start one ([utf8.DecodeRune] returning RuneError
    with width 1). *)
Definition utf8Len (s : string) : nat :=
  (match s with
  | String c0 r =>
      let cont := inRange 128 191 in
      let two lo hi :=
        match r with String c1 _ => inRange lo hi c1 | _ => false end in
      let three lo hi :=
        match r with
        | String c1 (String c2 _) => inRange lo hi c1 && cont c2
        | _ => false
        end in
      let four lo hi :=
        match r with
        | String c1 (String c2 (String c3 _)) => inRange lo hi c1 && cont c2 && cont c3
        | _ => false
        end in
      let n :=
        if inRange 194 223 c0 then (if two 128 191 then 2 else 0)
        else if inRange 224 224 c0 then (if three 160 191 then 3 else 0)
        else if inRange 237 237 c0 then (if three 128 159 then 3 else 0)
        else if inRange 225 239 c0 then (if three 128 191 then 3 else 0)
        else if inRange 240 240 c0 then (if four 144 191 then 4 else 0)
        else if inRange 241 243 c0 then (if four 128 191 then 4 else 0)
        else if inRange 244 244 c0 then (if four 128 143 then 4 else 0)
        else 0 in
      N.to_nat n
  | EmptyString => 0%nat
  end)%N.

Definition escapeChar (e : ascii) : ascii :=
  if (e =? "b")%char then "008"%char
  else if (e =? "f")%char then "012"%char
  else if (e =? "n")%char then "010"%char
  else if (e =? "r")%char then "013"%char
  else if (e =? "t")%char then "009"%char
  else e.

(** How the unquoting loop treats the next byte. *)
Inductive umode : Type :=
| UNormal
| USkip (n : nat)   (* n more bytes of an escape already translated *)
| UCopy (n : nat).  (* n more bytes of a well-formed UTF-8 sequence *)

Definition skip (n : nat) : umode :=
  match n with O => UNormal | _ => USkip n end.

Definition copy (n : nat) : umode :=
  match n with O => UNormal | _ => UCopy n end.

(** The text after the [uXXXX] of a first surrogate. *)
Definition afterU4 (s : string) : string :=
  match s with
  | String _ (String _ (String _ (String _ (String _ r)))) => r
  | _ => ""
  end.

Fixpoint unquoteFrom (m : umode) (s : string) : string :=
  match s with
  | EmptyString => ""
  | String c r =>
      match m with
      | USkip n => unquoteFrom (skip (pred n)) r
      | UCopy n => String c (unquoteFrom (copy (pred n)) r)
      | UNormal =>
          if (c =? bslash)%char then
            match getu4 r with
            | Some rr =>
                if isSurrogate rr then
                  let rr1 :=
                    match afterU4 r with
                    | String b r1 => if (b =? bslash)%char then getu4 r1 else None
                    | EmptyString => None
                    end in
                  let dec := utf16_DecodeRune rr rr1 in
                  if (dec =? replacementChar)%N
                  then encodeRune replacementChar +:+ unquoteFrom (USkip 5) r
                  else encodeRune dec +:+ unquoteFrom (USkip 11) r
                else encodeRune rr +:+ unquoteFrom (USkip 5) r
            | None =>
                match r with
                | String e _ => String (escapeChar e) (unquoteFrom (USkip 1) r)
                | EmptyString => ""
                end
            end
          else if (code c <? 128)%N then String c (unquoteFrom UNormal r)
          else
            match utf8Len s with
            | O => encodeRune replacementChar +:+ unquoteFrom UNormal r
            | S n => String c (unquoteFrom (copy n) r)
            end
      end
  end.

(** The contents of a string literal (the text between its quotes), with
    escapes translated and ill-formed UTF-8 replaced by U+FFFD. *)
Definition unquote (raw : string) : string := unquoteFrom UNormal raw.

(** *** The scanner (scanner.go) and the decoder's [readValue] (stream.go)

    The scanner is a state machine fed one byte at a time.  Its states are the
    step functions of scanner.go; its stack is [parseState].  Here each frame
    of the stack also collects the members or elements read so far, so that
    the run that validates the text yields the value as well. *)

Inductive sstate : Type :=
| stateBeginValueOrEmpty      (* after '[' *)
| stateBeginValue
| stateBeginStringOrEmpty     (* after '{' *)
| stateBeginString            (* after ',' in an object *)
| stateEndValue
| stateInString
| stateInStringEsc
| stateInStringEscU (seen : nat)  (* hex digits of \u read so far *)
| stateNeg
| state1
| state0
| stateDot
| stateDot0
| stateE
| stateESign
| stateE0
| stateLit (name rest : string) (v : json).  (* inside true, false or null *)

Inductive frame : Type :=
| parseObjectKey (members : list (string * json)) (key : option string)
| parseObjectValue (members : list (string * json)) (key : option string)
| parseArrayValue (elems : list json).

Record scanner : Type := mkScanner {
  step : sstate;
  parseState : list frame;   (* innermost first *)
  literal : list ascii       (* bytes of the literal being read, last first *)
}.

Inductive opcode : Type :=
| scanContinue (s : scanner)
| scanEnd (v : json)                       (* the top-level value is complete *)
| scanError (c : ascii) (context : string).

Definition maxNestingDepth : N := 10000.

Definition litText (l : list ascii) : string := string_of_list_ascii (rev l).

(** A value is complete: hand it to the enclosing frame. *)
Definition endOfValue (v : json) (stack : list frame) (c : ascii) : opcode :=
  match stack with
  | [] => scanEnd v
  | parseObjectKey ms None :: st =>
      match v with
      | JString k => scanContinue (mkScanner stateEndValue (parseObjectKey ms (Some k) :: st) [])
      | _ => scanError c "JSON decoder out of sync"
      end
  | parseObjectValue ms (Some k) :: st =>
      scanContinue (mkScanner stateEndValue (parseObjectValue ((k, v) :: ms) None :: st) [])
  | parseArrayValue es :: st =>
      scanContinue (mkScanner stateEndValue (parseArrayValue (v :: es) :: st) [])
  | _ => scanError c "JSON decoder out of sync"
  end.

(** [stateEndValue] on a byte that is not a space, with a non-empty stack. *)
Definition endValueByte (stack : list frame) (c : ascii) : opcode :=
  match stack with
  | parseObjectKey ms (Some k) :: st =>
      if (c =? ":")%char
      then scanContinue (mkScanner stateBeginValue (parseObjectValue ms (Some k) :: st) [])
      else scanError c "after object key"
  | parseObjectValue ms None :: st =>
      if (c =? ",")%char
      then scanContinue (mkScanner stateBeginString (parseObjectKey ms None :: st) [])
      else if (c =? "}")%char then endOfValue (JObject (rev ms)) st c
      else scanError c "after object key:value pair"
  | parseArrayValue es :: st =>
      if (c =? ",")%char
      then scanContinue (mkScanner stateBeginValue (parseArrayValue es :: st) [])
      else if (c =? "]")%char then endOfValue (JArray (rev es)) st c
      else scanError c "after array element"
  | _ => scanError c ""
  end.

Definition doEndValue (stack : list frame) (c : ascii) : opcode :=
  if isSpace c then scanContinue (mkScanner stateEndValue stack [])
  else endValueByte stack c.

(** A number ends at the first byte that cannot continue it; that byte is
    then read in [stateEndValue]. *)
Definition endNumber (s : scanner) (c : ascii) : opcode :=
  match endOfValue (JNumber (litText (literal s))) (parseState s) c with
  | scanContinue s' => doEndValue (parseState s') c
  | r => r
  end.

Definition pushParseState (c : ascii) (f : frame) (next : sstate) (stack : list frame) : opcode :=
  if (N.of_nat (S (length stack)) <=? maxNestingDepth)%N
  then scanContinue (mkScanner next (f :: stack) [])
  else scanError c "exceeded max depth".

Definition doBeginString (s : scanner) (c : ascii) : opcode :=
  if isSpace c then scanContinue s
  else if (c =? dquote)%char then scanContinue (mkScanner stateInString (parseState s) [])
  else scanError c "looking for beginning of object key string".

Definition beginLit (s : scanner) (name rest : string) (v : json) : opcode :=
  scanContinue (mkScanner (stateLit name rest v) (parseState s) []).

Definition doBeginValue (s : scanner) (c : ascii) : opcode :=
  if isSpace c then scanContinue s
  else if (c =? "{")%char then
    pushParseState c (parseObjectKey [] None) stateBeginStringOrEmpty (parseState s)
  else if (c =? "[")%char then
    pushParseState c (parseArrayValue []) stateBeginValueOrEmpty (parseState s)
  else if (c =? dquote)%char then scanContinue (mkScanner stateInString (parseState s) [])
  else if (c =? "-")%char then scanContinue (mkScanner stateNeg (parseState s) [c])
  else if (c =? "0")%char then scanContinue (mkScanner state0 (parseState s) [c])
  else if (c =? "t")%char then beginLit s "true" "rue" (JBool true)
  else if (c =? "f")%char then beginLit s "false" "alse" (JBool false)
  else if (c =? "n")%char then beginLit s "null" "ull" JNull
  else if isDigit19 c then scanContinue (mkScanner state1 (parseState s) [c])
  else scanError c "looking for beginning of value".

Definition more (s : scanner) (next : sstate) (c : ascii) : opcode :=
  scanContinue (mkScanner next (parseState s) (c :: literal s)).

Definition do0 (s : scanner) (c : ascii) : opcode :=
  if (c =? ".")%char then more s stateDot c
  else if (c =? "e")%char || (c =? "E")%char then more s stateE c
  else endNumber s c.

Definition doESign (s : scanner) (c : ascii) : opcode :=
  if isDigit c then more s stateE0 c
  else scanError c "in exponent of numeric literal".

(** One step of the scanner: [s.step(s, c)]. *)
Definition scanStep (s : scanner) (c : ascii) : opcode :=
  match step s with
  | stateBeginValueOrEmpty =>
      if isSpace c then scanContinue s
      else if (c =? "]")%char then endValueByte (parseState s) c
      else doBeginValue s c
  | stateBeginValue => doBeginValue s c
  | stateBeginStringOrEmpty =>
      if isSpace c then scanContinue s
      else if (c =? "}")%char then
        match parseState s with
        | parseObjectKey ms _ :: st => endValueByte (parseObjectValue ms None :: st) c
        | _ => scanError c "JSON decoder out of sync"
        end
      else doBeginString s c
  | stateBeginString => doBeginString s c
  | stateEndValue => doEndValue (parseState s) c
  | stateInString =>
      if (c =? dquote)%char then endOfValue (JString (unquote (litText (literal s)))) (parseState s) c
      else if (c =? bslash)%char then more s stateInStringEsc c
      else if (code c <? 32)%N then scanError c "in string literal"
      else more s stateInString c
  | stateInStringEsc =>
      if (c =? "b")%char || (c =? "f")%char || (c =? "n")%char || (c =? "r")%char
         || (c =? "t")%char || (c =? bslash)%char || (c =? "/")%char || (c =? dquote)%char
      then more s stateInString c
      else if (c =? "u")%char then more s (stateInStringEscU 0) c
      else scanError c "in string escape code"
  | stateInStringEscU n =>
      if isHex c
      then more s (if (n <? 3)%nat then stateInStringEscU (S n) else stateInString) c
      else scanError c "in \u hexadecimal character escape"
  | stateNeg =>
      if (c =? "0")%char then more s state0 c
      else if isDigit19 c then more s state1 c
      else scanError c "in numeric literal"
  | state1 => if isDigit c then more s state1 c else do0 s c
  | state0 => do0 s c
  | stateDot =>
      if isDigit c then more s stateDot0 c
      else scanError c "after decimal point in numeric literal"
  | stateDot0 =>
      if isDigit c then more s stateDot0 c
      else if (c =? "e")%char || (c =? "E")%char then more s stateE c
      else endNumber s c
  | stateE =>
      if (c =? "+")%char || (c =? "-")%char then more s stateESign c
      else doESign s c
  | stateESign => doESign s c
  | stateE0 => if isDigit c then more s stateE0 c else endNumber s c
  | stateLit name rest v =>
      match rest with
      | String x rest' =>
          if (c =? x)%char then
            match rest' with
            | EmptyString => endOfValue v (parseState s) c
            | _ => scanContinue (mkScanner (stateLit name rest' v) (parseState s) [])
            end
          else scanError c ("in literal " +:+ name)
      | EmptyString => scanError c ("in literal " +:+ name)
      end
  end.

Definition reset : scanner := mkScanner stateBeginValue [] [].

Definition nonSpace (b : string) : bool :=
  existsb (fun c => negb (isSpace c)) (list_ascii_of_string b).

(** [Decoder.readValue] on a reader that holds [data] and then reports EOF:
    the first JSON value of [data].  What follows that value is not looked
    at.  [buf] is the whole input, for the end-of-input diagnosis. *)
Fixpoint readFrom (buf : string) (s : scanner) (data : string) : error + json :=
  match data with
  | String c rest =>
      match scanStep s c with
      | scanContinue s' => readFrom buf s' rest
      | scanEnd v => inr v
      | scanError c' context => inl (json_SyntaxError c' context)
      end
  | EmptyString =>
      match scanStep s " "%char with
      | scanEnd v => inr v
      | _ => inl (if nonSpace buf then io_ErrUnexpectedEOF else io_EOF)
      end
  end.

Definition readValue (data : string) : error + json := readFrom data reset data.

(** *** Numbers (strconv.ParseInt, strconv.ParseFloat) *)

Definition digit (c : ascii) : Z := Z.of_N (code c) - 48.

Fixpoint digitsValue (acc : Z) (s : string) : option Z :=
  match s with
  | EmptyString => Some acc
  | String c r => if isDigit c then digitsValue (acc * 10 + digit c) r else None
  end.

(** [strconv.ParseInt(lit, 10, 64)] on a JSON number literal: an optional
    minus sign and digits only, within the range of int64. *)
Definition ParseInt (lit : string) : option Z :=
  match lit with
  | EmptyString => None
  | String c r =>
      if (c =? "-")%char then
        match r with
        | EmptyString => None
        | _ => match digitsValue 0 r with
               | Some n => if n <=? 2 ^ 63 then Some (- n) else None
               | None => None
               end
        end
      else match digitsValue 0 lit with
           | Some n => if n <? 2 ^ 63 then Some n else None
           | None => None
           end
  end.

(** The magnitude of a number literal as [mant * 10 ^ exp10]. *)
Inductive numPhase : Type := InInt | InFrac | InExpSign | InExp (neg : bool).

Record decimal : Type := mkDecimal { mant : Z; exp10 : Z; expDigits : Z }.

Fixpoint readDecimal (ph : numPhase) (d : decimal) (s : string) : decimal :=
  match s with
  | EmptyString =>
      match ph with
      | InExp true => mkDecimal (mant d) (exp10 d - expDigits d) 0
      | InExp false => mkDecimal (mant d) (exp10 d + expDigits d) 0
      | _ => d
      end
  | String c r =>
      let isE := ((c =? "e")%char || (c =? "E")%char)%bool in
      match ph with
      | InInt =>
          if (c =? "-")%char then readDecimal InInt d r
          else if (c =? ".")%char then readDecimal InFrac d r
          else if isE then readDecimal InExpSign d r
          else readDecimal InInt (mkDecimal (mant d * 10 + digit c) (exp10 d) 0) r
      | InFrac =>
          if isE then readDecimal InExpSign d r
          else readDecimal InFrac (mkDecimal (mant d * 10 + digit c) (exp10 d - 1) 0) r
      | InExpSign =>
          if (c =? "-")%char then readDecimal (InExp true) d r
          else if (c =? "+")%char then readDecimal (InExp false) d r
          else readDecimal (InExp false) (mkDecimal (mant d) (exp10 d) (digit c)) r
      | InExp neg =>
          readDecimal (InExp neg) (mkDecimal (mant d) (exp10 d) (expDigits d * 10 + digit c)) r
      end
  end.

(** Half an ULP above the largest finite float64: from here on a value
    rounds (to nearest, ties to even) to 2^1024, which float64 cannot hold. *)
Definition float64Limit : Z := 2 ^ 1024 - 2 ^ 970.

(** Whether [strconv.ParseFloat(lit, 64)] reports a range error: the value
    of the literal, taken exactly, rounds beyond the largest float64.
    (The conversion itself keeps at most 800 significant digits and cuts
    exponents off near 10000; the comparison below is the documented
    contract and agrees with it for literals within those sizes.) *)
Definition float64Overflows (lit : string) : bool :=
  let d := readDecimal InInt (mkDecimal 0 0 0) lit in
  if 0 <=? exp10 d
  then float64Limit <=? mant d * 10 ^ exp10 d
  else float64Limit * 10 ^ (- exp10 d) <=? mant d.

(** *** Storing into Go values (decode.go) *)

(** The [Value] text of an [UnmarshalTypeError]. *)
Definition kindName (v : json) : string :=
  match v with
  | JNull => "null"
  | JBool _ => "bool"
  | JNumber _ => "number"
  | JString _ => "string"
  | JArray _ => "array"
  | JObject _ => "object"
  end.

(** [literalStore] into a field of kind string: null leaves it as it is. *)
Definition storeString (field : string) (v : json) (old : string) : error + string :=
  match v with
  | JNull => inr old
  | JString s => inr s
  | _ => inl (json_UnmarshalTypeError (kindName v) field)
  end.

(** [literalStore] into a field of kind int. *)
Definition storeInt (field : string) (v : json) (old : Z) : error + Z :=
  match v with
  | JNull => inr old
  | JNumber lit =>
      match ParseInt lit with
      | Some n => inr n
      | None => inl (json_UnmarshalTypeError ("number " +:+ lit) field)
      end
  | _ => inl (json_UnmarshalTypeError (kindName v) field)
  end.

(** [foldName]: the key under which a field is found when no field has
    exactly that name.  ASCII letters are upper-cased; the two letters
    outside ASCII that fold to an ASCII one (U+017F to S, U+212A to K) are
    replaced by it.  Other bytes stay: the field names compared against are
    ASCII. *)
Definition upper (c : ascii) : ascii :=
  if inRange 97 122 c then byte (code c - 32) else c.

Fixpoint foldFrom (skipn : nat) (s : string) : string :=
  match s with
  | EmptyString => ""
  | String c r =>
      match skipn with
      | S n => foldFrom n r
      | O =>
          match s with
          | String c0 (String c1 r') =>
              if ((code c0 =? 197) && (code c1 =? 191))%N
              then String "S" (foldFrom 1 r)
              else match r' with
                   | String c2 _ =>
                       if ((code c0 =? 226) && (code c1 =? 132) && (code c2 =? 170))%N
                       then String "K" (foldFrom 2 r)
                       else String (upper c) (foldFrom 0 r)
                   | EmptyString => String (upper c) (foldFrom 0 r)
                   end
          | _ => String (upper c) (foldFrom 0 r)
          end
      end
  end.

Definition foldName (s : string) : string := foldFrom 0 s.

Definition isField (name key : string) : bool :=
  String.eqb (foldName key) (foldName name).

(** [object] into a struct: each member, in the order of the text, is
    stored into the field its key names ([set]); a later member for the same
    field is stored over the earlier one.  The first error is the one
    reported. *)
Fixpoint setMembers {T : Type} (set : string -> json -> T -> error + T)
    (ms : list (string * json)) (t : T) : error + T :=
  match ms with
  | [] => inr t
  | (k, v) :: ms' =>
      match set k v t with
      | inl e => inl e
      | inr t' => setMembers set ms' t'
      end
  end.

(** [value] into a struct: an object fills it, null leaves it as it is,
    anything else is a type error. *)
Definition storeStruct {T : Type} (field : string)
    (set : string -> json -> T -> error + T) (v : json) (old : T) : error + T :=
  match v with
  | JNull => inr old
  | JObject ms => setMembers set ms old
  | _ => inl (json_UnmarshalTypeError (kindName v) field)
  end.

(** *** Storing into [any] ([valueInterface]) *)

(** A Go value of type [any] as [encoding/json] builds it.  A float64 is
    denoted by the literal it was converted from. *)
Inductive any : Type :=
| nil_any
| bool_any (b : bool)
| float64_any (lit : string)
| string_any (s : string)
| slice_any (elems : list any)
| map_any (m : list (string * any)).   (* at most one entry per key *)

(** [m[key] = v] *)
Fixpoint mapAssign {V : Type} (m : list (string * V)) (key : string) (v : V) : list (string * V) :=
  match m with
  | [] => [(key, v)]
  | (k, x) :: m' => if String.eqb k key then (k, v) :: m' else (k, x) :: mapAssign m' key v
  end.

Definition convertNumber (lit : string) : error + any :=
  if float64Overflows lit
  then inl (json_UnmarshalTypeError ("number " +:+ lit) "")
  else inr (float64_any lit).

Fixpoint valueInterface (v : json) : error + any :=
  match v with
  | JNull => inr nil_any
  | JBool b => inr (bool_any b)
  | JNumber lit => convertNumber lit
  | JString s => inr (string_any s)
  | JArray es =>
      (fix arrayInterface (es : list json) (acc : list any) : error + any :=
         match es with
         | [] => inr (slice_any (rev acc))
         | e :: es' =>
             match valueInterface e with
             | inl err => inl err
             | inr a => arrayInterface es' (a :: acc)
             end
         end) es []
  | JObject ms =>
      (fix objectInterface (ms : list (string * json)) (m : list (string * any)) : error + any :=
         match ms with
         | [] => inr (map_any m)
         | (k, e) :: ms' =>
             match valueInterface e with
             | inl err => inl err
             | inr a => objectInterface ms' (mapAssign m k a)
             end
         end) ms []
  end.

(** [json.NewDecoder(bytes.NewReader(body)).Decode(&v)] with [v] of type
    [any]: read the first value of the body, then store it. *)
Definition DecodeAny (body : string) : error + any :=
  match readValue body with
  | inl e => inl e
  | inr v => valueInterface v
  end.


(** JSON texts are written below with apostrophes in place of double quotes. *)
Definition js (s : string) : string :=
  string_of_list_ascii
    (map (fun c => if (c =? "'")%char then dquote else c) (list_ascii_of_string s)).

End Json.

Import Json.

(* ===================================================================== *)
(** ** The webhook payload *)
(* ===================================================================== *)

(** Modelled from the spec: the declaration of [GitlabWebhookPayload] and of
    the structs nested in it is not part of this file.  The fields are the
    ones the handler reads (a string event type, the project's path with
    namespace, and for each of [ObjectAttributes] and [MergeRequest] an
    integer IID and the ID of the last commit); the JSON keys are the ones
    GitLab sends ([event_type], [project.path_with_namespace],
    [object_attributes], [merge_request], [iid], [last_commit.id]). *)
Record GitlabWebhookPayloadCommit : Type := mkCommit { ID : string }.

Record GitlabWebhookPayloadMergeRequest : Type := mkMergeRequest {
  IID : Z;
  LastCommit : GitlabWebhookPayloadCommit
}.

Record GitlabWebhookPayloadProject : Type := mkProject { PathWithNamespace : string }.

Record GitlabWebhookPayload : Type := mkPayload {
  EventType : string;
  Project : GitlabWebhookPayloadProject;
  ObjectAttributes : GitlabWebhookPayloadMergeRequest;
  MergeRequest : GitlabWebhookPayloadMergeRequest
}.

Definition mapr {A B : Type} (f : A -> B) (r : error + A) : error + B :=
  match r with
  | inl e => inl e
  | inr a => inr (f a)
  end.

Definition setCommit (k : string) (v : json) (c : GitlabWebhookPayloadCommit)
    : error + GitlabWebhookPayloadCommit :=
  if isField "id" k then mapr mkCommit (storeString "id" v (ID c))
  else inr c.

Definition setMergeRequest (k : string) (v : json) (m : GitlabWebhookPayloadMergeRequest)
    : error + GitlabWebhookPayloadMergeRequest :=
  if isField "iid" k then
    mapr (fun n => mkMergeRequest n (LastCommit m)) (storeInt "iid" v (IID m))
  else if isField "last_commit" k then
    mapr (fun c => mkMergeRequest (IID m) c) (storeStruct "last_commit" setCommit v (LastCommit m))
  else inr m.

Definition setProject (k : string) (v : json) (p : GitlabWebhookPayloadProject)
    : error + GitlabWebhookPayloadProject :=
  if isField "path_with_namespace" k
  then mapr mkProject (storeString "path_with_namespace" v (PathWithNamespace p))
  else inr p.

Definition setPayload (k : string) (v : json) (p : GitlabWebhookPayload)
    : error + GitlabWebhookPayload :=
  if isField "event_type" k then
    mapr (fun s => mkPayload s (Project p) (ObjectAttributes p) (MergeRequest p))
         (storeString "event_type" v (EventType p))
  else if isField "project" k then
    mapr (fun x => mkPayload (EventType p) x (ObjectAttributes p) (MergeRequest p))
         (storeStruct "project" setProject v (Project p))
  else if isField "object_attributes" k then
    mapr (fun x => mkPayload (EventType p) (Project p) x (MergeRequest p))
         (storeStruct "object_attributes" setMergeRequest v (ObjectAttributes p))
  else if isField "merge_request" k then
    mapr (fun x => mkPayload (EventType p) (Project p) (ObjectAttributes p) x)
         (storeStruct "merge_request" setMergeRequest v (MergeRequest p))
  else inr p.

(** [var payload GitlabWebhookPayload] *)
Definition zeroPayload : GitlabWebhookPayload :=
  let mr := mkMergeRequest 0 (mkCommit "") in
  mkPayload "" (mkProject "") mr mr.

(** [json.NewDecoder(bytes.NewReader(body)).Decode(&payload)] *)
Definition DecodePayload (body : string) : error + GitlabWebhookPayload :=
  match readValue body with
  | inl e => inl e
  | inr v => storeStruct "" setPayload v zeroPayload
  end.

(** [strconv.Itoa] *)
Definition Itoa (n : Z) : string := NilEmpty.string_of_int (Z.to_int n).

(* ===================================================================== *)
(** ** Status codes, requests, the correlation context *)
(* ===================================================================== *)

Definition StatusOK : Z := 200.
Definition StatusBadRequest : Z := 400.
Definition StatusForbidden : Z := 403.
Definition StatusNotAcceptable : Z := 406.
Definition StatusInternalServerError : Z := 500.

(** [io.Reader] holding a fetched file: its bytes. *)
Definition io_Reader : Type := string.

(** [http.Header.Get]: the first value stored under the key, the empty string
    when there is none.  Both keys the handler asks for are in canonical
    form already, as are the keys of the headers of a request. *)
Definition Header_Get (h : gmap string (list string)) (key : string) : string :=
  match h !! key with
  | Some (v :: _) => v
  | _ => ""
  end.

Section Handler.

(** [config.Config], from the configuration package. *)
Variable Config : Type.

(** Modelled from the spec: the [state] package (the correlation-context
    utility exposing attach-field and read-field) is not part of this file.
    A context carries the fields the handler attaches and the settings it
    reads. *)
Record Context : Type := mkContext {
  ProjectID : string;
  CommitSHA : string;
  MergeRequestID : string;
  logAttrs : list (string * string);
  ConfigFilePath : string;
  GlobalConfigFilePath : string;
  GlobalConfig : option Config
}.

Definition WithProjectID (ctx : Context) (v : string) : Context :=
  mkContext v (CommitSHA ctx) (MergeRequestID ctx) (logAttrs ctx)
            (ConfigFilePath ctx) (GlobalConfigFilePath ctx) (GlobalConfig ctx).

Definition WithCommitSHA (ctx : Context) (v : string) : Context :=
  mkContext (ProjectID ctx) v (MergeRequestID ctx) (logAttrs ctx)
            (ConfigFilePath ctx) (GlobalConfigFilePath ctx) (GlobalConfig ctx).

Definition WithMergeRequestID (ctx : Context) (v : string) : Context :=
  mkContext (ProjectID ctx) (CommitSHA ctx) v (logAttrs ctx)
            (ConfigFilePath ctx) (GlobalConfigFilePath ctx) (GlobalConfig ctx).

(** [slogctx.With(ctx, slog.String(key, v))] *)
Definition slogctx_With (ctx : Context) (key v : string) : Context :=
  mkContext (ProjectID ctx) (CommitSHA ctx) (MergeRequestID ctx) (logAttrs ctx ++ [(key, v)])%list
            (ConfigFilePath ctx) (GlobalConfigFilePath ctx) (GlobalConfig ctx).

(** Modelled from the spec: [config.GlobalConfigFromContext] belongs to the
    configuration package.  It reads the global configuration already loaded
    into the context, nil when there is none. *)
Definition GlobalConfigFromContext (ctx : Context) : option Config := GlobalConfig ctx.

(** An incoming request: its headers, its context, and what reading its
    body to the end gives ([io.ReadAll(r.Body)]). *)
Record Request : Type := mkRequest {
  Header : gmap string (list string);
  rContext : Context;
  ReadAll : string * option error
}.

(** The platform client, as far as the handler itself calls it. *)
Record Client : Type := mkClient {
  GetRemoteConfig : Context -> string -> string -> option io_Reader * option error
}.

(** The collaborators of the handler. *)
Variable ParseFile : io_Reader -> option Config * option error.
Variable ProcessMR : Context -> Client -> option Config -> any -> option error.

(* ===================================================================== *)
(** ** What a run of the handler does *)
(* ===================================================================== *)

(** The calls a run makes, in order. *)
Inductive event : Type :=
| CallErrHandler (ctx : Context) (code : Z) (err : error)
| CallReadAll
| CallDecodePayload (body : string)
| CallDecodeAny (body : string)
| CallInfo (ctx : Context) (msg : string)
| CallGetRemoteConfig (ctx : Context) (path sha : string)
| CallParseFile (file : io_Reader)
| CallGlobalConfigFromContext (ctx : Context)
| CallProcessMR (ctx : Context) (cfg : option Config) (payload : any)
| CallWriteHeader (code : Z)
| CallWrite (data : string).

(** A step of the handler: the calls it made, and its result unless the
    handler returned. *)
Definition M (A : Type) : Type := list event * option A.

#[local] Instance M_ret : MRet M := fun A a => ([], Some a).

#[local] Instance M_bind : MBind M := fun A B f m =>
  match m with
  | (tr, Some a) => let '(tr', b) := f a in ((tr ++ tr')%list, b)
  | (tr, None) => (tr, None)
  end.

Definition call (e : event) : M unit := ([e], Some tt).

(** [return] *)
Definition halt {A : Type} : M A := ([], None).

Definition errHandler (ctx : Context) (code : Z) (err : error) : M unit :=
  call (CallErrHandler ctx code err).

Definition when (b : bool) (m : M unit) : M unit := if b then m else mret tt.

Definition handlerFunc (client : Client) (webhookSecret : string) (r : Request) : M unit :=
  let ctx := rContext r in
  (* Check if the webhook secret is set (and if its matching) *)
  when (0 <? String.length webhookSecret)%nat (
    let theirSecret := Header_Get (Header r) "X-Gitlab-Token" in
    when (negb (String.eqb webhookSecret theirSecret)) (
      errHandler ctx StatusForbidden (errors_New "Missing or invalid X-Gitlab-Token header");;
      halt)) ;;
  (* Validate content type *)
  when (negb (String.eqb (Header_Get (Header r) "Content-Type") "application/json")) (
    errHandler ctx StatusNotAcceptable
      (errors_New "The request is not using Content-Type: application/json");;
    halt) ;;
  (* Read the POST body of the request *)
  call CallReadAll ;;
  let '(body, err) := ReadAll r in
  match err with
  | Some err => errHandler ctx StatusBadRequest err ;; halt
  | None => mret tt
  end ;;
  (* Ensure we have content in the POST body *)
  when (String.length body =? 0)%nat (
    errHandler ctx StatusBadRequest
      (errors_New "The POST body is empty; expected a JSON payload")) ;;
  (* Decode request payload *)
  call (CallDecodePayload body) ;;
  payload ← match DecodePayload body with
            | inl err =>
                errHandler ctx StatusBadRequest
                  (fmt_Errorf_w "could not decode POST body into Payload struct: " err) ;;
                halt
            | inr payload => mret payload
            end ;
  (* Initialize context *)
  let ctx := WithProjectID ctx (PathWithNamespace (Project payload)) in
  (* Grab event specific information *)
  '(id, gitSha) ←
    (if String.eqb (EventType payload) "merge_request" then
       mret (Itoa (IID (ObjectAttributes payload)), ID (LastCommit (ObjectAttributes payload)))
     else if String.eqb (EventType payload) "note" then
       mret (Itoa (IID (MergeRequest payload)), ID (LastCommit (MergeRequest payload)))
     else
       errHandler ctx StatusInternalServerError
         (errors_New ("unknown event type: " +:+ EventType payload)) ;;
       halt) ;
  (* Build context for rest of the pipeline *)
  let ctx := WithCommitSHA ctx gitSha in
  let ctx := WithMergeRequestID ctx id in
  let ctx := slogctx_With ctx "event_type" (EventType payload) in
  call (CallInfo ctx "GET /gitlab webhook") ;;
  (* Decode request payload into 'any' so we have all the details *)
  call (CallDecodeAny body) ;;
  fullEventPayload ← match DecodeAny body with
                     | inl err => errHandler ctx StatusInternalServerError err ;; halt
                     | inr v => mret v
                     end ;
  (* Check if there exists scm-config file in the repo before moving forward *)
  call (CallGetRemoteConfig ctx (ConfigFilePath ctx) (CommitSHA ctx)) ;;
  let '(file, err) := GetRemoteConfig client ctx (ConfigFilePath ctx) (CommitSHA ctx) in
  (* only error when global config is not set *)
  match err with
  | Some err =>
      when (String.eqb (GlobalConfigFilePath ctx) "") (errHandler ctx StatusOK err ;; halt)
  | None => mret tt
  end ;;
  (* Try to parse the config file *)
  cfg ← match file with
        | Some file => call (CallParseFile file) ;; mret (fst (ParseFile file))
        | None =>
            (* avoid trying to read-and-parse again if global config is set *)
            call (CallGlobalConfigFromContext ctx) ;; mret (GlobalConfigFromContext ctx)
        end ;
  (* Process the MR *)
  call (CallProcessMR ctx cfg fullEventPayload) ;;
  match ProcessMR ctx client cfg fullEventPayload with
  | Some err => errHandler ctx StatusOK err ;; halt
  | None => mret tt
  end ;;
  call (CallWriteHeader StatusOK) ;;
  call (CallWrite "OK").

(** [GitLabWebhookHandler]: the client is built once; failing to build it
    panics, otherwise the handler above is returned. *)
Variable getClient : Context -> error + Client.

Definition GitLabWebhookHandler (ctx : Context) (webhookSecret : string)
    : error + (Request -> M unit) :=
  match getClient ctx with
  | inl err => inl err
  | inr client => inr (handlerFunc client webhookSecret)
  end.

(** The calls of a run. *)
Definition trace (m : M unit) : list event := fst m.

End Handler.

Arguments mkContext {Config}.
Arguments mkRequest {Config}.
Arguments mkClient {Config}.
Arguments CallErrHandler {Config}.
Arguments CallReadAll {Config}.
Arguments CallDecodePayload {Config}.
Arguments CallDecodeAny {Config}.
Arguments CallInfo {Config}.
Arguments CallGetRemoteConfig {Config}.
Arguments CallParseFile {Config}.
Arguments CallGlobalConfigFromContext {Config}.
Arguments CallProcessMR {Config}.
Arguments CallWriteHeader {Config}.
Arguments CallWrite {Config}.
Arguments handlerFunc {Config}.
Arguments trace {Config}.
Arguments DecodePayload : simpl never.
Arguments DecodeAny : simpl never.
Arguments Itoa : simpl never.
Arguments Header_Get : simpl never.

(* ===================================================================== *)
(** ** The response a run leaves behind *)
(* ===================================================================== *)

(** What was written to the body: the text of an error, or given bytes. *)
Inductive chunk : Type :=
| errorText (err : error)
| bytes (data : string).

(** [statusCode] is [None] as long as no header has been written. *)
Record Response : Type := mkResponse {
  statusCode : option Z;
  written : list chunk
}.

(** [http.ResponseWriter]: the first status written is the one sent; a
    write before any status sends 200. *)
Definition WriteHeader (code : Z) (w : Response) : Response :=
  match statusCode w with
  | None => mkResponse (Some code) (written w)
  | Some _ => w
  end.

Definition Write (c : chunk) (w : Response) : Response :=
  let w := WriteHeader StatusOK w in
  mkResponse (statusCode w) (written w ++ [c]).

(** Modelled from the spec: [errHandler] is declared elsewhere in the
    package.  It answers with the given status and the text of the error as
    the body. *)
Definition respond {Config : Type} (w : Response) (e : event Config) : Response :=
  match e with
  | CallErrHandler _ code err => Write (errorText err) (WriteHeader code w)
  | CallWriteHeader code => WriteHeader code w
  | CallWrite data => Write (bytes data) w
  | _ => w
  end.

Definition response {Config : Type} (tr : list (event Config)) : Response :=
  fold_left respond tr (mkResponse None []).

(* ===================================================================== *)
(** ** The paths through the handler *)
(* ===================================================================== *)

(** The secret check lets a request through: no secret is configured, or
    the token header carries it. *)
Definition secretAccepted {Config : Type} (webhookSecret : string) (r : Request Config) : Prop :=
  webhookSecret = "" \/ Header_Get (Header _ r) "X-Gitlab-Token" = webhookSecret.

Definition jsonContentType {Config : Type} (r : Request Config) : Prop :=
  Header_Get (Header _ r) "Content-Type" = "application/json".

(** The identifier and commit reference the event names, if its kind is known. *)
Definition eventTarget (p : GitlabWebhookPayload) : option (string * string) :=
  if String.eqb (EventType p) "merge_request"
  then Some (Itoa (IID (ObjectAttributes p)), ID (LastCommit (ObjectAttributes p)))
  else if String.eqb (EventType p) "note"
  then Some (Itoa (IID (MergeRequest p)), ID (LastCommit (MergeRequest p)))
  else None.

(** The context the rest of the pipeline runs in. *)
Definition pipelineContext {Config : Type} (ctx : Context Config)
    (p : GitlabWebhookPayload) (id gitSha : string) : Context Config :=
  slogctx_With _
    (WithMergeRequestID _
       (WithCommitSHA _ (WithProjectID _ ctx (PathWithNamespace (Project p))) gitSha) id)
    "event_type" (EventType p).


Definition emptyBodyError : error :=
  errors_New "The POST body is empty; expected a JSON payload".

(** The calls up to and including the second decode, once the event kind
    is known. *)
Definition decoded {Config : Type} (body : string) (ctx : Context Config) : list (event Config) :=
  [CallReadAll; CallDecodePayload body; CallInfo ctx "GET /gitlab webhook"; CallDecodeAny body].


Section Paths.

Variable Config : Type.
Variable ParseFile : io_Reader -> option Config * option error.
Variable ProcessMR : Context Config -> Client Config -> option Config -> any -> option error.
Variable client : Client Config.
Variable webhookSecret : string.
Variable r : Request Config.

Local Abbreviation ctx0 := (rContext Config r).

(** Every run of the handler follows one of these paths. *)
Inductive Path : list (event Config) -> Prop :=
| PathForbidden :
    webhookSecret <> "" ->
    Header_Get (Header _ r) "X-Gitlab-Token" <> webhookSecret ->
    Path [CallErrHandler ctx0 StatusForbidden
            (errors_New "Missing or invalid X-Gitlab-Token header")]
| PathNotAcceptable :
    secretAccepted webhookSecret r ->
    ~ jsonContentType r ->
    Path [CallErrHandler ctx0 StatusNotAcceptable
            (errors_New "The request is not using Content-Type: application/json")]
| PathReadError body err :
    secretAccepted webhookSecret r -> jsonContentType r ->
    ReadAll _ r = (body, Some err) ->
    Path [CallReadAll; CallErrHandler ctx0 StatusBadRequest err]
| PathEmptyBody :
    secretAccepted webhookSecret r -> jsonContentType r ->
    ReadAll _ r = ("", None) ->
    Path [CallReadAll; CallErrHandler ctx0 StatusBadRequest emptyBodyError;
          CallDecodePayload "";
          CallErrHandler ctx0 StatusBadRequest
            (fmt_Errorf_w "could not decode POST body into Payload struct: " io_EOF)]
| PathDecodeError body err :
    secretAccepted webhookSecret r -> jsonContentType r ->
    ReadAll _ r = (body, None) -> body <> "" ->
    DecodePayload body = inl err ->
    Path [CallReadAll; CallDecodePayload body;
          CallErrHandler ctx0 StatusBadRequest
            (fmt_Errorf_w "could not decode POST body into Payload struct: " err)]
| PathUnknownEvent body p :
    secretAccepted webhookSecret r -> jsonContentType r ->
    ReadAll _ r = (body, None) -> body <> "" ->
    DecodePayload body = inr p ->
    eventTarget p = None ->
    Path [CallReadAll; CallDecodePayload body;
          CallErrHandler (WithProjectID _ ctx0 (PathWithNamespace (Project p)))
            StatusInternalServerError
            (errors_New ("unknown event type: " +:+ EventType p))]
| PathSecondDecodeError body p id gitSha err :
    secretAccepted webhookSecret r -> jsonContentType r ->
    ReadAll _ r = (body, None) -> body <> "" ->
    DecodePayload body = inr p ->
    eventTarget p = Some (id, gitSha) ->
    DecodeAny body = inl err ->
    let ctx := pipelineContext ctx0 p id gitSha in
    Path (decoded body ctx ++ [CallErrHandler ctx StatusInternalServerError err])
| PathFetchFatal body p id gitSha full file err :
    secretAccepted webhookSecret r -> jsonContentType r ->
    ReadAll _ r = (body, None) -> body <> "" ->
    DecodePayload body = inr p ->
    eventTarget p = Some (id, gitSha) ->
    DecodeAny body = inr full ->
    let ctx := pipelineContext ctx0 p id gitSha in
    GetRemoteConfig _ client ctx (ConfigFilePath _ ctx) (CommitSHA _ ctx) = (file, Some err) ->
    GlobalConfigFilePath _ ctx = "" ->
    Path (decoded body ctx
          ++ [CallGetRemoteConfig ctx (ConfigFilePath _ ctx) (CommitSHA _ ctx);
              CallErrHandler ctx StatusOK err])
| PathProcessed body p id gitSha full file err :
    secretAccepted webhookSecret r -> jsonContentType r ->
    ReadAll _ r = (body, None) -> body <> "" ->
    DecodePayload body = inr p ->
    eventTarget p = Some (id, gitSha) ->
    DecodeAny body = inr full ->
    let ctx := pipelineContext ctx0 p id gitSha in
    GetRemoteConfig _ client ctx (ConfigFilePath _ ctx) (CommitSHA _ ctx) = (file, err) ->
    (err = None \/ GlobalConfigFilePath _ ctx <> "") ->
    let resolve :=
      match file with
      | Some f => (CallParseFile f, fst (ParseFile f))
      | None => (CallGlobalConfigFromContext ctx, GlobalConfigFromContext _ ctx)
      end in
    Path (decoded body ctx
          ++ [CallGetRemoteConfig ctx (ConfigFilePath _ ctx) (CommitSHA _ ctx);
              fst resolve;
              CallProcessMR ctx (snd resolve) full]
          ++ match ProcessMR ctx client (snd resolve) full with
             | Some e => [CallErrHandler ctx StatusOK e]
             | None => [CallWriteHeader StatusOK; CallWrite "OK"]
             end).

End Paths.

Arguments Path {Config}.
Arguments PathSecondDecodeError {Config ParseFile ProcessMR client webhookSecret r}.
Arguments PathFetchFatal {Config ParseFile ProcessMR client webhookSecret r}.
Arguments PathProcessed {Config ParseFile ProcessMR client webhookSecret r}.

(* ===================================================================== *)
(** ** Sample requests and collaborators *)
(* ===================================================================== *)

Module Sample.

(** A context with no global configuration, and one with. *)
Definition ctxLocal : Context string :=
  mkContext "" "" "" [] ".scm-engine.yml" "" None.

Definition ctxGlobal : Context string :=
  mkContext "" "" "" [] ".scm-engine.yml" "/etc/scm-engine.yml" (Some "global rules").

Definition headers (token contentType : string) : gmap string (list string) :=
  <["X-Gitlab-Token" := [token]]> (<["Content-Type" := [contentType]]> ∅).

Definition request (ctx : Context string) (token contentType body : string) : Request string :=
  mkRequest (headers token contentType) ctx (body, None).

Definition noteBody : string :=
  js "{'event_type':'note','merge_request':{'iid':7,'last_commit':{'id':'abc'}},'project':{'path_with_namespace':'g/p'}}".

Definition mergeRequestBody : string :=
  js "{'event_type':'merge_request','object_attributes':{'iid':12,'last_commit':{'id':'f00'}},'project':{'path_with_namespace':'g/p'}}".

Definition pushBody : string := js "{'event_type':'push'}".

(** A body with an unknown member whose number overflows float64. *)
Definition overflowBody : string :=
  js "{'event_type':'note','merge_request':{'iid':7,'last_commit':{'id':'abc'}},'x':1e999}".

Definition notePayload : GitlabWebhookPayload :=
  mkPayload "note" (mkProject "g/p")
    (mkMergeRequest 0 (mkCommit "")) (mkMergeRequest 7 (mkCommit "abc")).

Definition mergeRequestPayload : GitlabWebhookPayload :=
  mkPayload "merge_request" (mkProject "g/p")
    (mkMergeRequest 12 (mkCommit "f00")) (mkMergeRequest 0 (mkCommit "")).

Definition pushPayload : GitlabWebhookPayload :=
  mkPayload "push" (mkProject "")
    (mkMergeRequest 0 (mkCommit "")) (mkMergeRequest 0 (mkCommit "")).

Definition fetchError : error := errors_New "404 Not Found".
Definition parseError : error := errors_New "yaml: unmarshal errors".
Definition processError : error := errors_New "evaluation failed".

(** A client that finds the file, and one whose fetch fails. *)
Definition clientFound : Client string :=
  mkClient (fun _ _ _ => (Some "label: []", None)).

Definition clientMissing : Client string :=
  mkClient (fun _ _ _ => (None, Some fetchError)).

Definition parseOk (file : io_Reader) : option string * option error := (Some file, None).
Definition parseFails (file : io_Reader) : option string * option error := (None, Some parseError).

Definition processOk (_ : Context string) (_ : Client string) (_ : option string) (_ : any)
    : option error := None.
Definition processFails (_ : Context string) (_ : Client string) (_ : option string) (_ : any)
    : option error := Some processError.

(** The context of the pipeline for [noteBody] sent with [ctx]. *)
Definition noteContext (ctx : Context string) : Context string :=
  pipelineContext ctx notePayload "7" "abc".

End Sample.

(* ===================================================================== *)
(** ** Further notions used to state properties *)
(* ===================================================================== *)

(** The range of Go's [int] on a 64-bit platform. *)
Definition int64 (n : Z) : Prop := - 2 ^ 63 <= n < 2 ^ 63.

(** The number written by the digits of [d], read after [acc]. *)
Fixpoint uintValue (acc : Z) (d : Decimal.uint) : Z :=
  match d with
  | Decimal.Nil => acc
  | Decimal.D0 d' => uintValue (acc * 10) d'
  | Decimal.D1 d' => uintValue (acc * 10 + 1) d'
  | Decimal.D2 d' => uintValue (acc * 10 + 2) d'
  | Decimal.D3 d' => uintValue (acc * 10 + 3) d'
  | Decimal.D4 d' => uintValue (acc * 10 + 4) d'
  | Decimal.D5 d' => uintValue (acc * 10 + 5) d'
  | Decimal.D6 d' => uintValue (acc * 10 + 6) d'
  | Decimal.D7 d' => uintValue (acc * 10 + 7) d'
  | Decimal.D8 d' => uintValue (acc * 10 + 8) d'
  | Decimal.D9 d' => uintValue (acc * 10 + 9) d'
  end.

(** The value the scanner completes within [data], before its end: [None]
    when the scan fails or is still going on at the end of [data]. *)
Fixpoint endsWithin (s : scanner) (data : string) : option json :=
  match data with
  | String c rest =>
      match scanStep s c with
      | scanContinue s' => endsWithin s' rest
      | scanEnd v => Some v
      | scanError _ _ => None
      end
  | EmptyString => None
  end.

Fixpoint noSpaceIn (s : string) : bool :=
  match s with
  | EmptyString => true
  | String c r => negb (c =? " ")%char && noSpaceIn r
  end.

(** In a scanner reached from [reset], the rest of a literal name holds no
    space. *)
Definition literalState (s : scanner) : Prop :=
  match step s with
  | stateLit _ rest _ => noSpaceIn rest = true
  | _ => True
  end.

Definition isNumber (v : json) : Prop := exists lit, v = JNumber lit.

Definition isFetch {Config : Type} (e : event Config) : bool :=
  match e with CallGetRemoteConfig _ _ _ => true | _ => false end.

Definition isProcess {Config : Type} (e : event Config) : bool :=
  match e with CallProcessMR _ _ _ => true | _ => false end.

Definition isResolve {Config : Type} (e : event Config) : bool :=
  match e with
  | CallParseFile _ => true
  | CallGlobalConfigFromContext _ => true
  | _ => false
  end.

Definition isRead {Config : Type} (e : event Config) : bool :=
  match e with CallReadAll => true | _ => false end.

(** How many calls of a kind a run makes. *)
Definition calls {Config : Type} (kind : event Config -> bool) (tr : list (event Config)) : nat :=
  length (List.filter kind tr).

(** Whether every call of kind [later] in [tr] comes after some call of kind
    [earlier]; [seen] tells that one was made before [tr]. *)
Fixpoint inOrder {Config : Type} (earlier later : event Config -> bool) (seen : bool)
    (tr : list (event Config)) : bool :=
  match tr with
  | [] => true
  | e :: tr' =>
      (if later e then seen else true) && inOrder earlier later (seen || earlier e) tr'
  end.

(** Further sample requests. *)
Module SampleMore.

Import Sample.

Definition readError : error := io_ErrUnexpectedEOF.

(** A request whose body cannot be read to the end. *)
Definition brokenRequest : Request string :=
  mkRequest (headers "s3" "application/json") ctxLocal ("{'eve", Some readError).

Definition truncatedBody : string := js "{'event_type':".

(** A client that finds no file and reports no error. *)
Definition clientSilent : Client string :=
  mkClient (fun _ _ _ => (None, None)).

Definition overflowPayload : GitlabWebhookPayload :=
  mkPayload "note" (mkProject "")
    (mkMergeRequest 0 (mkCommit "")) (mkMergeRequest 7 (mkCommit "abc")).

End SampleMore.

(* ===================================================================== *)
(** ** Properties of the decoder *)
(* ===================================================================== *)

(** Induction over JSON values, with the hypothesis for every element of an
    array and every member of an object. *)
Section JsonInduction.

Variable P : json -> Prop.
Hypothesis Hnull : P JNull.
Hypothesis Hbool : forall b, P (JBool b).
Hypothesis Hnumber : forall lit, P (JNumber lit).
Hypothesis Hstring : forall s, P (JString s).
Hypothesis Harray : forall es, Forall P es -> P (JArray es).
Hypothesis Hobject : forall ms, Forall (fun kv => P (snd kv)) ms -> P (JObject ms).


End JsonInduction.




(** *** Numbers: [Itoa] and [ParseInt] *)

Lemma digitsValue_uint (d : Decimal.uint) (acc : Z) :
  digitsValue acc (NilEmpty.string_of_uint d) = Some (uintValue acc d).
Proof.
  revert acc. induction d; intros acc; cbn [NilEmpty.string_of_uint uintValue digitsValue];
    try reflexivity.
  all: match goal with
       | |- context [isDigit ?c] => change (isDigit c) with true; cbv iota
       end.
  all: rewrite <- IHd; f_equal; unfold digit; cbn; lia.
Qed.

Lemma of_uint_acc_value (d : Decimal.uint) (acc : positive) :
  Zpos (Pos.of_uint_acc d acc) = uintValue (Zpos acc) d.
Proof.
  revert acc. induction d; intros acc; cbn [Pos.of_uint_acc uintValue];
    try reflexivity; rewrite IHd; f_equal; lia.
Qed.

Lemma of_uint_value (d : Decimal.uint) : Z.of_N (Pos.of_uint d) = uintValue 0 d.
Proof.
  induction d; cbn [Pos.of_uint uintValue]; try reflexivity; try exact IHd.
  all: cbn [Z.of_N]; rewrite of_uint_acc_value; reflexivity.
Qed.

Lemma to_uint_value (p : positive) : uintValue 0 (Pos.to_uint p) = Zpos p.
Proof.
  rewrite <- of_uint_value, DecimalPos.Unsigned.of_to. reflexivity.
Qed.

Lemma ParseInt_digits (d : Decimal.uint) :
  d <> Decimal.Nil ->
  ParseInt (NilEmpty.string_of_uint d)
  = if uintValue 0 d <? 2 ^ 63 then Some (uintValue 0 d) else None.
Proof.
  intros Hd. pose proof (digitsValue_uint d 0) as Hv.
  destruct d; [contradiction | ..]; unfold ParseInt;
    cbn [NilEmpty.string_of_uint] in *;
    match goal with
    | |- context [(?c =? "-")%char] => change (c =? "-")%char with false; cbv iota
    end;
    rewrite Hv; reflexivity.
Qed.

(** X15. Parsing the decimal text that [Itoa] writes gives the number back,
    for every number an [int] can hold. *)
Theorem ParseInt_Itoa (n : Z) : int64 n -> ParseInt (Itoa n) = Some n.
Proof.
  unfold int64, Itoa. intros [Hlo Hhi]. destruct n as [| p | p].
  - reflexivity.
  - cbn [Z.to_int NilEmpty.string_of_int].
    rewrite (ParseInt_digits _ (DecimalPos.Unsigned.to_uint_nonnil p)), to_uint_value.
    destruct (Z.ltb_spec (Zpos p) (2 ^ 63)); [reflexivity | lia].
  - cbn [Z.to_int NilEmpty.string_of_int]. unfold ParseInt.
    change ("-" =? "-")%char with true. cbv iota.
    pose proof (DecimalPos.Unsigned.to_uint_nonnil p) as Hnil.
    pose proof (digitsValue_uint (Pos.to_uint p) 0) as Hv.
    rewrite to_uint_value in Hv.
    destruct (NilEmpty.string_of_uint (Pos.to_uint p)) eqn:Hs.
    + destruct (Pos.to_uint p); try contradiction; discriminate.
    + rewrite Hv. destruct (Z.leb_spec (Zpos p) (2 ^ 63)); [reflexivity | lia].
Qed.

Lemma isDigit_digit (c : ascii) : isDigit c = true -> 0 <= digit c <= 9.
Proof.
  unfold isDigit, digit. intros H. apply andb_true_iff in H as [H1 H2].
  apply N.leb_le in H1, H2. lia.
Qed.

Lemma digitsValue_nonneg (s : string) (acc n : Z) :
  0 <= acc -> digitsValue acc s = Some n -> 0 <= n.
Proof.
  revert acc. induction s as [| c s IH]; intros acc Hacc H; cbn [digitsValue] in H.
  - injection H as <-. exact Hacc.
  - destruct (isDigit c) eqn:Hc; [| discriminate].
    apply isDigit_digit in Hc. eapply IH; [| exact H]. lia.
Qed.

Lemma ParseInt_int64 (lit : string) (n : Z) : ParseInt lit = Some n -> int64 n.
Proof.
  unfold ParseInt, int64. destruct lit as [| c r]; [discriminate |].
  destruct (c =? "-")%char.
  - destruct r as [| c' r']; [discriminate |].
    destruct (digitsValue 0 (String c' r')) as [m |] eqn:Hm; [| discriminate].
    apply digitsValue_nonneg in Hm; [| lia].
    destruct (Z.leb_spec m (2 ^ 63)) as [Hle | Hgt]; [| discriminate].
    intros Heq. injection Heq as <-. lia.
  - destruct (digitsValue 0 (String c r)) as [m |] eqn:Hm; [| discriminate].
    apply digitsValue_nonneg in Hm; [| lia].
    destruct (Z.ltb_spec m (2 ^ 63)) as [Hlt | Hge]; [| discriminate].
    intros Heq. injection Heq as <-. lia.
Qed.

(** *** What the typed decode keeps *)

Lemma setMembers_invariant {T : Type} (Inv : T -> Prop)
    (set : string -> json -> T -> error + T) :
  (forall k v a b, Inv a -> set k v a = inr b -> Inv b) ->
  forall ms a b, Inv a -> setMembers set ms a = inr b -> Inv b.
Proof.
  intros Hset ms. induction ms as [| [k v] ms IH]; intros a b Ha H; cbn [setMembers] in H.
  - injection H as <-. exact Ha.
  - destruct (set k v a) as [e | a'] eqn:Hs; [discriminate |].
    eapply IH; [eapply Hset; eassumption | exact H].
Qed.

Lemma storeStruct_invariant {T : Type} (Inv : T -> Prop) (field : string)
    (set : string -> json -> T -> error + T) :
  (forall k v a b, Inv a -> set k v a = inr b -> Inv b) ->
  forall v a b, Inv a -> storeStruct field set v a = inr b -> Inv b.
Proof.
  intros Hset v a b Ha H. destruct v; cbn in H; try discriminate.
  - injection H as <-. exact Ha.
  - eapply setMembers_invariant; eassumption.
Qed.

Lemma setMergeRequest_int64 (k : string) (v : json) (a b : GitlabWebhookPayloadMergeRequest) :
  int64 (IID a) -> setMergeRequest k v a = inr b -> int64 (IID b).
Proof.
  unfold setMergeRequest. intros Ha H.
  destruct (isField "iid" k).
  - destruct v; cbn in H; try discriminate.
    + injection H as <-. exact Ha.
    + destruct (ParseInt lit) as [n |] eqn:Hn; [| discriminate].
      injection H as <-. cbn. eapply ParseInt_int64. exact Hn.
  - destruct (isField "last_commit" k).
    + destruct (storeStruct "last_commit" setCommit v (LastCommit a)); [discriminate |].
      injection H as <-. exact Ha.
    + injection H as <-. exact Ha.
Qed.

(** X16. Every IID of a decoded payload is within the range of [int]. *)
Theorem decoded_IID_int64 (body : string) (p : GitlabWebhookPayload) :
  DecodePayload body = inr p ->
  int64 (IID (ObjectAttributes p)) /\ int64 (IID (MergeRequest p)).
Proof.
  unfold DecodePayload. destruct (readValue body) as [e | v]; [discriminate |].
  apply (storeStruct_invariant
           (fun q => int64 (IID (ObjectAttributes q)) /\ int64 (IID (MergeRequest q)))).
  - intros k w a b [Ho Hm] H. unfold setPayload in H.
    repeat match type of H with
           | (if ?c then _ else _) = _ => destruct c
           end;
      try match type of H with
          | mapr _ ?x = _ => destruct x as [e | y] eqn:Hx; [discriminate |]
          end;
      cbn in H; injection H as <-; cbn; split; try assumption.
    + eapply (storeStruct_invariant (fun m => int64 (IID m))); try exact Hx; try assumption.
      intros; eapply setMergeRequest_int64; eassumption.
    + eapply (storeStruct_invariant (fun m => int64 (IID m))); try exact Hx; try assumption.
      intros; eapply setMergeRequest_int64; eassumption.
  - unfold int64. cbn. lia.
Qed.

(** *** The first value of the input, and what surrounds it *)

Lemma nonSpace_cons (c : ascii) (s : string) :
  nonSpace (String c s) = negb (isSpace c) || nonSpace s.
Proof. reflexivity. Qed.

Lemma readFrom_blank (data buf : string) :
  nonSpace data = false -> nonSpace buf = false -> readFrom buf reset data = inl io_EOF.
Proof.
  induction data as [| c rest IH]; intros Hdata Hbuf.
  - cbn. rewrite Hbuf. reflexivity.
  - rewrite nonSpace_cons in Hdata. apply orb_false_iff in Hdata as [Hc Hrest].
    apply negb_false_iff in Hc.
    cbn [readFrom]. unfold scanStep, reset at 1. cbn [step]. unfold doBeginValue.
    rewrite Hc. apply IH; assumption.
Qed.

(** Input that holds nothing but spaces ends the decoder with [io.EOF]. *)
Lemma readValue_blank (body : string) : nonSpace body = false -> readValue body = inl io_EOF.
Proof. intros H. apply readFrom_blank; exact H. Qed.

Lemma endsWithin_app (data : string) :
  forall s v, endsWithin s data = Some v ->
  forall buf t, readFrom buf s (data +:+ t) = inr v.
Proof.
  induction data as [| c rest IH]; intros s v H buf t; cbn [endsWithin] in H.
  - discriminate.
  - change (String c rest +:+ t) with (String c (rest +:+ t)). cbn [readFrom].
    destruct (scanStep s c) as [s' | w | c' ctx].
    + apply IH. exact H.
    + injection H as <-. reflexivity.
    + discriminate.
Qed.

Ltac unfold_scan H :=
  unfold scanStep, do0, doESign, endNumber, doBeginValue, doBeginString, beginLit, more,
    pushParseState, doEndValue, endValueByte, endOfValue in H.

Ltac split_scan H :=
  repeat match type of H with
         | context [if ?b then _ else _] => destruct b eqn:?
         | context [match ?x with _ => _ end] => destruct x eqn:?
         end.

Lemma literalState_step (s s' : scanner) (c : ascii) :
  literalState s -> scanStep s c = scanContinue s' -> literalState s'.
Proof.
  unfold literalState. intros Hs H. destruct s as [st stack lit]. cbn [step] in Hs.
  unfold_scan H. cbn [step parseState literal] in H.
  destruct st; split_scan H; try discriminate; injection H as <-; cbn [step];
    try exact I; try reflexivity.
  cbn [noSpaceIn] in Hs. apply andb_true_iff in Hs as [_ Hs]. exact Hs.
Qed.

Lemma endOfValue_end (w v : json) (stack : list frame) (c : ascii) :
  endOfValue w stack c = scanEnd v -> v = w.
Proof.
  unfold endOfValue. intros H. split_scan H; try discriminate.
  injection H as <-. reflexivity.
Qed.

Lemma endValueByte_space (stack : list frame) (v : json) :
  endValueByte stack " "%char <> scanEnd v.
Proof.
  unfold endValueByte. intros H. cbn in H. split_scan H; discriminate.
Qed.

Lemma endNumber_space (s : scanner) (v : json) :
  endNumber s " "%char = scanEnd v -> isNumber v.
Proof.
  unfold endNumber. intros H.
  destruct (endOfValue (JNumber (litText (literal s))) (parseState s) " "%char)
    as [s' | w | c' ctx] eqn:Hend; try discriminate H.
  injection H as <-. apply endOfValue_end in Hend. eexists. exact Hend.
Qed.

Lemma space_ends_number (s : scanner) (v : json) :
  literalState s -> scanStep s " "%char = scanEnd v -> isNumber v.
Proof.
  unfold literalState. intros Hs H. destruct s as [st stack lit]. cbn [step] in Hs.
  unfold scanStep in H. cbn [step] in H.
  destruct st;
    try solve
      [ unfold do0, doESign, more, doBeginValue, doBeginString, doEndValue in H;
        cbn [isSpace isDigit isDigit19 isHex code N_of_ascii orb andb negb Ascii.eqb Bool.eqb
             N.leb N.ltb N.compare Pos.compare Pos.compare_cont N_of_digits N.add N.mul
             Pos.add Pos.mul Pos.succ dquote bslash parseState literal] in H;
        first [ discriminate H | apply endNumber_space in H; exact H ] ].
  (* inside true, false or null *)
  destruct rest as [| x rest']; [discriminate H |].
  cbn [noSpaceIn] in Hs. apply andb_true_iff in Hs as [Hs _].
  apply negb_true_iff in Hs. rewrite Ascii.eqb_sym in Hs. rewrite Hs in H. discriminate H.
Qed.

Lemma readFrom_ends (data : string) :
  forall s buf v, literalState s -> readFrom buf s data = inr v ->
  endsWithin s data = Some v \/ isNumber v.
Proof.
  induction data as [| c rest IH]; intros s buf v Hs H; cbn [readFrom endsWithin] in *.
  - right. destruct (scanStep s " "%char) as [s' | w | c' ctx] eqn:Hstep; try discriminate.
    injection H as <-. eapply space_ends_number; eassumption.
  - destruct (scanStep s c) as [s' | w | c' ctx] eqn:Hstep; try discriminate.
    + eapply IH; [eapply literalState_step; eassumption | exact H].
    + injection H as <-. left. reflexivity.
Qed.

Lemma DecodePayload_value (body : string) (p : GitlabWebhookPayload) :
  DecodePayload body = inr p ->
  exists v, readValue body = inr v /\ (v = JNull \/ exists ms, v = JObject ms).
Proof.
  unfold DecodePayload. destruct (readValue body) as [e | v]; [discriminate |].
  intros H. exists v. split; [reflexivity |].
  destruct v; cbn in H; try discriminate; [left; reflexivity | right; eexists; reflexivity].
Qed.

(** X17. Once the typed decode accepts a body, whatever is appended to the
    body changes neither the payload nor the result of the untyped decode:
    both decoders stop at the end of the first value. *)
Theorem trailing_bytes_ignored (body : string) (p : GitlabWebhookPayload) :
  DecodePayload body = inr p ->
  forall t, DecodePayload (body +:+ t) = inr p /\ DecodeAny (body +:+ t) = DecodeAny body.
Proof.
  intros Hdec t.
  destruct (DecodePayload_value body p Hdec) as (v & Hv & Hkind).
  assert (Hends : endsWithin reset body = Some v).
  { destruct (readFrom_ends body reset body v I Hv) as [H | [lit ->]]; [exact H |].
    destruct Hkind as [H | [ms H]]; discriminate. }
  pose proof (endsWithin_app body reset v Hends (body +:+ t) t) as Happ.
  unfold DecodePayload, DecodeAny, readValue in *.
  rewrite Happ. rewrite Hv in *. split; [exact Hdec | reflexivity].
Qed.

(* ===================================================================== *)
(** ** Properties of the pipeline *)
(* ===================================================================== *)

Lemma length_pos_nonempty (s : string) : (0 <? String.length s)%nat = true <-> s <> "".
Proof.
  destruct s; simpl; split; intros H; try congruence; try discriminate.
  reflexivity.
Qed.

Lemma length_zero_empty (s : string) : (String.length s =? 0)%nat = true <-> s = "".
Proof.
  destruct s; simpl; split; intros H; try congruence; try discriminate.
Qed.

Lemma DecodePayload_empty : DecodePayload "" = inl io_EOF.
Proof. reflexivity. Qed.

Lemma DecodeAny_empty : DecodeAny "" = inl io_EOF.
Proof. reflexivity. Qed.

Ltac rewrite_eqb :=
  match goal with
  | H : String.eqb _ _ = _ |- _ => rewrite H
  end.

Ltac unfold_handler :=
  unfold trace, handlerFunc, when, errHandler, call, halt;
  cbn [mbind M_bind mret M_ret fst snd app].

Ltac subst_lets :=
  repeat match goal with
         | x := _ |- _ => subst x
         end.

Ltac no_such_call :=
  repeat match goal with
         | |- context [match ?x with _ => _ end] => destruct x
         | H : context [match ?x with _ => _ end] |- _ => destruct x
         end;
  cbn [In app decoded fst snd] in *; intuition (try discriminate; try congruence).

Lemma Header_Get_missing (h : gmap string (list string)) (key : string) :
  h !! key = None -> Header_Get h key = "".
Proof. unfold Header_Get. intros ->. reflexivity. Qed.

Section Run.

Variable Config : Type.
Variable ParseFile : io_Reader -> option Config * option error.
Variable ProcessMR : Context Config -> Client Config -> option Config -> any -> option error.
Variable client : Client Config.
Variable webhookSecret : string.
Variable r : Request Config.

Local Abbreviation ctx0 := (rContext Config r).
Local Abbreviation run := (trace (handlerFunc ParseFile ProcessMR client webhookSecret r)).

Lemma token_accepted_or_not :
  secretAccepted webhookSecret r
  \/ (webhookSecret <> "" /\ Header_Get (Header _ r) "X-Gitlab-Token" <> webhookSecret).
Proof.
  unfold secretAccepted.
  destruct (string_dec webhookSecret "") as [-> | Hne]; [left; left; reflexivity |].
  destruct (string_dec (Header_Get (Header _ r) "X-Gitlab-Token") webhookSecret) as [Heq | Hd].
  - left; right; exact Heq.
  - right; split; assumption.
Qed.

Lemma accepted_skips_refusal (A : Type) (x y : A) :
  secretAccepted webhookSecret r ->
  (if (0 <? String.length webhookSecret)%nat
   then if negb (String.eqb webhookSecret (Header_Get (Header _ r) "X-Gitlab-Token"))
        then x else y
   else y) = y.
Proof.
  intros [Hs | Hs].
  - rewrite Hs. reflexivity.
  - rewrite Hs, String.eqb_refl. simpl. destruct (0 <? _)%nat; reflexivity.
Qed.

Lemma refused_takes_refusal (A : Type) (x y : A) :
  webhookSecret <> "" ->
  Header_Get (Header _ r) "X-Gitlab-Token" <> webhookSecret ->
  (if (0 <? String.length webhookSecret)%nat
   then if negb (String.eqb webhookSecret (Header_Get (Header _ r) "X-Gitlab-Token"))
        then x else y
   else y) = x.
Proof.
  intros Hne Hd. apply length_pos_nonempty in Hne. rewrite Hne.
  destruct (String.eqb_spec webhookSecret (Header_Get (Header _ r) "X-Gitlab-Token"));
    [congruence | reflexivity].
Qed.

Lemma handler_path :
  Path ParseFile ProcessMR client webhookSecret r run.
Proof.
  unfold_handler.
  destruct token_accepted_or_not as [Hsec | [Hne Hd]].
  2: { rewrite (refused_takes_refusal _ _ _ Hne Hd). cbn. apply PathForbidden; assumption. }
  rewrite (accepted_skips_refusal _ _ _ Hsec). cbn [mbind M_bind mret M_ret fst snd app].
  destruct (String.eqb_spec (Header_Get (Header _ r) "Content-Type") "application/json")
    as [Hct | Hct]; cbn [negb mbind M_bind mret M_ret fst snd app].
  2: { apply PathNotAcceptable; assumption. }
  destruct (ReadAll _ r) as [body [err |]] eqn:Hread; cbn [mbind M_bind mret M_ret fst snd app].
  { eapply PathReadError; eassumption. }
  destruct body as [| c body'].
  { cbn. apply PathEmptyBody; assumption. }
  set (body := String c body') in *.
  assert (Hbody : body <> "") by discriminate.
  replace (String.length body =? 0)%nat with false by reflexivity.
  cbn [mbind M_bind mret M_ret fst snd app].
  destruct (DecodePayload body) as [err | p] eqn:Hdec; cbn [mbind M_bind mret M_ret fst snd app].
  { eapply PathDecodeError; eassumption. }
  assert (Htargets :
    (String.eqb (EventType p) "merge_request" = true ->
     eventTarget p = Some (Itoa (IID (ObjectAttributes p)), ID (LastCommit (ObjectAttributes p))))
    /\ (String.eqb (EventType p) "merge_request" = false ->
        String.eqb (EventType p) "note" = true ->
        eventTarget p = Some (Itoa (IID (MergeRequest p)), ID (LastCommit (MergeRequest p))))
    /\ (String.eqb (EventType p) "merge_request" = false ->
        String.eqb (EventType p) "note" = false -> eventTarget p = None)).
  { unfold eventTarget. repeat split; intros; repeat rewrite_eqb; reflexivity. }
  destruct Htargets as (Hmr & Hnote & Hother).
  destruct (String.eqb (EventType p) "merge_request");
    [ specialize (Hmr eq_refl) as Htarget
    | destruct (String.eqb (EventType p) "note");
      [ specialize (Hnote eq_refl eq_refl) as Htarget
      | specialize (Hother eq_refl eq_refl) as Htarget ] ];
    cbn [mbind M_bind mret M_ret fst snd app].
  3: { eapply PathUnknownEvent; eassumption. }
  all: match type of Htarget with
       | _ = Some (?id, ?sha) =>
           change (slogctx_With Config
                     (WithMergeRequestID Config
                        (WithCommitSHA Config
                           (WithProjectID Config (rContext Config r)
                              (PathWithNamespace (Project p))) sha) id)
                     "event_type" (EventType p))
             with (pipelineContext ctx0 p id sha);
           set (ctx := pipelineContext ctx0 p id sha)
       end.
  all: destruct (DecodeAny body) as [err | full] eqn:Hany;
         cbn [mbind M_bind mret M_ret fst snd app];
         [ exact (PathSecondDecodeError body p _ _ err Hsec Hct Hread Hbody Hdec Htarget Hany) | ].
  all: destruct (GetRemoteConfig _ client ctx (ConfigFilePath _ ctx) (CommitSHA _ ctx))
         as [file err] eqn:Hfetch.
  all: pose proof (fun e => @PathFetchFatal Config ParseFile ProcessMR client webhookSecret r
                               body p _ _ full file e
                               Hsec Hct Hread Hbody Hdec Htarget Hany) as Hfatal;
       pose proof (@PathProcessed Config ParseFile ProcessMR client webhookSecret r
                     body p _ _ full file err
                     Hsec Hct Hread Hbody Hdec Htarget Hany Hfetch) as Hgo;
       cbv zeta in Hfatal, Hgo; fold ctx in Hfatal, Hgo.
  all: destruct err as [err |];
         [ destruct (String.eqb_spec (GlobalConfigFilePath _ ctx) "") as [Hg | Hg];
           [ cbn [mbind M_bind mret M_ret fst snd app];
             exact (Hfatal err Hfetch Hg)
           | specialize (Hgo (or_intror Hg)) ]
         | specialize (Hgo (or_introl eq_refl)) ].
  all: cbn [mbind M_bind mret M_ret fst snd app];
       destruct file as [f |]; cbn [mbind M_bind mret M_ret fst snd app] in *;
       destruct (ProcessMR ctx client _ full);
       cbn [mbind M_bind mret M_ret fst snd app] in *; exact Hgo.
Qed.




(** Case analysis on the path the run follows. *)
Ltac by_path :=
  let HP := fresh "HP" in
  let tr := fresh "tr" in
  pose proof handler_path as HP;
  set (tr := trace (handlerFunc ParseFile ProcessMR client webhookSecret r)) in *;
  clearbody tr; destruct HP; subst_lets.

(** C5. A configured secret that the token header does not carry (or no
    token header at all) gives 403 and nothing else happens: the client is
    not called.  Without a configured secret no request is refused as
    forbidden. *)
Theorem secret_check :
  (webhookSecret <> "" ->
   Header_Get (Header _ r) "X-Gitlab-Token" <> webhookSecret ->
   run = [CallErrHandler ctx0 StatusForbidden
            (errors_New "Missing or invalid X-Gitlab-Token header")]
   /\ response run
      = mkResponse (Some StatusForbidden)
          [errorText (errors_New "Missing or invalid X-Gitlab-Token header")]
   /\ (forall c p s, ~ In (CallGetRemoteConfig c p s) run)
   /\ (forall c cfg full, ~ In (CallProcessMR c cfg full) run))
  /\ (webhookSecret <> "" ->
      Header _ r !! "X-Gitlab-Token" = None ->
      statusCode (response run) = Some StatusForbidden)
  /\ (webhookSecret = "" ->
      (forall c e, ~ In (CallErrHandler c StatusForbidden e) run)
      /\ statusCode (response run) <> Some StatusForbidden).
Proof.
  assert (Hforbidden : webhookSecret <> "" ->
            Header_Get (Header _ r) "X-Gitlab-Token" <> webhookSecret ->
            run = [CallErrHandler ctx0 StatusForbidden
                     (errors_New "Missing or invalid X-Gitlab-Token header")]).
  { intros Hne Hd. unfold_handler.
    rewrite (refused_takes_refusal _ _ _ Hne Hd). reflexivity. }
  split; [| split].
  - intros Hne Hd. rewrite (Hforbidden Hne Hd).
    repeat split; try reflexivity; intros; cbn; intuition discriminate.
  - intros Hne Hmiss. rewrite Hforbidden; [reflexivity | assumption |].
    rewrite (Header_Get_missing _ _ Hmiss). congruence.
  - intros Hempty.
    assert (Hno : forall c e, ~ In (CallErrHandler c StatusForbidden e) run).
    { intros c e Hin. clear Hforbidden. by_path; no_such_call. }
    split; [exact Hno |].
    clear Hforbidden. by_path; try (unfold secretAccepted in *; no_such_call).
Qed.

(** C7, amended. With a content type other than application/json the body
    is never read; the answer is 406 when the secret check lets the request
    through, and 403 when it does not. *)
Theorem content_type_check :
  Header_Get (Header _ r) "Content-Type" <> "application/json" ->
  ~ In CallReadAll run
  /\ (secretAccepted webhookSecret r ->
      run = [CallErrHandler ctx0 StatusNotAcceptable
               (errors_New "The request is not using Content-Type: application/json")]
      /\ response run
         = mkResponse (Some StatusNotAcceptable)
             [errorText (errors_New "The request is not using Content-Type: application/json")])
  /\ (~ secretAccepted webhookSecret r ->
      statusCode (response run) = Some StatusForbidden).
Proof.
  intros Hct. unfold jsonContentType in *.
  by_path; unfold jsonContentType in *; try contradiction.
  - split; [cbn; intuition discriminate |]. split.
    + intros [Hacc | Hacc]; congruence.
    + reflexivity.
  - split; [cbn; intuition discriminate |]. split.
    + intros _. split; reflexivity.
    + intros Hrej. contradiction.
Qed.

(** C1. A request that passes the secret and content-type checks and has an
    empty body gets a 400 written, and the run goes on to decode the empty
    body. *)
Theorem empty_body_continues :
  secretAccepted webhookSecret r ->
  jsonContentType r ->
  ReadAll _ r = ("", None) ->
  (exists rest,
     run = ([CallReadAll;
             CallErrHandler ctx0 StatusBadRequest
               (errors_New "The POST body is empty; expected a JSON payload");
             CallDecodePayload ""] ++ rest)%list)
  /\ statusCode (response run) = Some StatusBadRequest.
Proof.
  intros Hsec Hct Hread.
  by_path; try congruence; try (destruct Hsec; congruence).
  split; [eexists; reflexivity | reflexivity].
Qed.

(** C9. Decoding the empty body fails, and that branch returns: a request
    with an empty body never gets as far as the remote configuration or
    [ProcessMR]. *)
Theorem empty_body_stops :
  fst (ReadAll _ r) = "" ->
  DecodePayload "" = inl io_EOF
  /\ (forall c p s, ~ In (CallGetRemoteConfig c p s) run)
  /\ (forall c cfg full, ~ In (CallProcessMR c cfg full) run)
  /\ (secretAccepted webhookSecret r -> jsonContentType r -> snd (ReadAll _ r) = None ->
      run = [CallReadAll;
             CallErrHandler ctx0 StatusBadRequest emptyBodyError;
             CallDecodePayload "";
             CallErrHandler ctx0 StatusBadRequest
               (fmt_Errorf_w "could not decode POST body into Payload struct: " io_EOF)]).
Proof.
  intros Hbody. split; [reflexivity |].
  by_path;
    try match goal with
        | H : ReadAll _ r = _ |- _ => rewrite H in Hbody; cbn in Hbody; try congruence
        end.
  all: repeat split; intros; try reflexivity; try no_such_call.
  all: try match goal with
           | H : ReadAll _ r = _ |- _ => rewrite H in *; cbn in *; try congruence
           end.
  all: unfold secretAccepted, jsonContentType in *; try tauto; try (intuition congruence).
Qed.

Lemma eventTarget_merge_request (p : GitlabWebhookPayload) :
  EventType p = "merge_request" ->
  eventTarget p = Some (Itoa (IID (ObjectAttributes p)), ID (LastCommit (ObjectAttributes p))).
Proof. intros H. unfold eventTarget. rewrite H. reflexivity. Qed.

Lemma eventTarget_note (p : GitlabWebhookPayload) :
  EventType p = "note" ->
  eventTarget p = Some (Itoa (IID (MergeRequest p)), ID (LastCommit (MergeRequest p))).
Proof. intros H. unfold eventTarget. rewrite H. reflexivity. Qed.

Lemma eventTarget_unknown (p : GitlabWebhookPayload) :
  EventType p <> "merge_request" -> EventType p <> "note" -> eventTarget p = None.
Proof.
  intros H1 H2. unfold eventTarget.
  destruct (String.eqb_spec (EventType p) "merge_request"); [contradiction |].
  destruct (String.eqb_spec (EventType p) "note"); [contradiction | reflexivity].
Qed.



(** C6. A decoded payload whose kind is neither merge_request nor note is
    answered 500 with an error that names the kind, and nothing downstream
    is called. *)
Theorem unknown_event_type (body : string) (p : GitlabWebhookPayload) :
  secretAccepted webhookSecret r ->
  jsonContentType r ->
  ReadAll _ r = (body, None) ->
  DecodePayload body = inr p ->
  EventType p <> "merge_request" ->
  EventType p <> "note" ->
  let err := errors_New ("unknown event type: " +:+ EventType p) in
  run = [CallReadAll; CallDecodePayload body;
         CallErrHandler (WithProjectID _ ctx0 (PathWithNamespace (Project p)))
           StatusInternalServerError err]
  /\ response run = mkResponse (Some StatusInternalServerError) [errorText err]
  /\ (forall b, ~ In (CallDecodeAny b) run)
  /\ (forall c path sha, ~ In (CallGetRemoteConfig c path sha) run)
  /\ (forall c cfg full, ~ In (CallProcessMR c cfg full) run).
Proof.
  intros Hsec Hct Hread Hdec Hmr Hnote err.
  pose proof (eventTarget_unknown p Hmr Hnote) as Htarget.
  by_path; unfold jsonContentType in *; try congruence; try (destruct Hsec; congruence).
  all: match goal with
       | H : ReadAll _ r = _ |- _ => rewrite H in Hread; injection Hread as <-
       end.
  all: try (rewrite DecodePayload_empty in Hdec; discriminate).
  all: match goal with
       | H : DecodePayload _ = _ |- _ => rewrite H in Hdec; try discriminate
       end.
  all: injection Hdec as <-.
  all: try congruence.
  repeat split; intros; cbn; intuition discriminate.
Qed.

(** What a run that reaches configuration resolution looks like. *)
Lemma reaches_config_inv (ctx : Context Config) (path sha : string) :
  In (CallGetRemoteConfig ctx path sha) run ->
  exists body full,
    let fetched := GetRemoteConfig _ client ctx path sha in
    let resolve :=
      match fst fetched with
      | Some f => (CallParseFile f, fst (ParseFile f))
      | None => (CallGlobalConfigFromContext ctx, GlobalConfigFromContext _ ctx)
      end in
    run = (decoded body ctx
           ++ CallGetRemoteConfig ctx path sha
           :: match snd fetched with
              | Some err =>
                  if String.eqb (GlobalConfigFilePath _ ctx) ""
                  then [CallErrHandler ctx StatusOK err]
                  else fst resolve :: CallProcessMR ctx (snd resolve) full
                       :: match ProcessMR ctx client (snd resolve) full with
                          | Some e => [CallErrHandler ctx StatusOK e]
                          | None => [CallWriteHeader StatusOK; CallWrite "OK"]
                          end
              | None =>
                  fst resolve :: CallProcessMR ctx (snd resolve) full
                  :: match ProcessMR ctx client (snd resolve) full with
                     | Some e => [CallErrHandler ctx StatusOK e]
                     | None => [CallWriteHeader StatusOK; CallWrite "OK"]
                     end
              end)%list.
Proof.
  intros Hin.
  by_path; try solve [exfalso; no_such_call].
  - (* the fetch error is fatal *)
    cbn [In app decoded] in Hin.
    assert (Heq : ctx = pipelineContext (rContext Config r) p id gitSha
                  /\ path = ConfigFilePath _ (pipelineContext (rContext Config r) p id gitSha)
                  /\ sha = CommitSHA _ (pipelineContext (rContext Config r) p id gitSha))
      by (intuition (try discriminate; try congruence)).
    destruct Heq as (-> & -> & ->).
    exists body, full. cbv zeta.
    match goal with H : GetRemoteConfig _ _ _ _ _ = _ |- _ => rewrite H end.
    match goal with H : GlobalConfigFilePath _ _ = _ |- _ => rewrite H end.
    reflexivity.
  - (* the run goes on to ProcessMR *)
    assert (Heq : ctx = pipelineContext (rContext Config r) p id gitSha
                  /\ path = ConfigFilePath _ (pipelineContext (rContext Config r) p id gitSha)
                  /\ sha = CommitSHA _ (pipelineContext (rContext Config r) p id gitSha)).
    { destruct file; destruct (ProcessMR _ _ _ _);
        cbn [In app decoded fst snd] in Hin; intuition (try discriminate; try congruence). }
    destruct Heq as (-> & -> & ->).
    exists body, full. cbv zeta.
    match goal with H : GetRemoteConfig _ _ _ _ _ = _ |- _ => rewrite H end.
    cbn [fst snd].
    match goal with H : _ \/ _ |- _ => destruct H as [-> | Hg] end.
    + reflexivity.
    + destruct err; [| reflexivity].
      destruct (String.eqb_spec
                  (GlobalConfigFilePath _ (pipelineContext (rContext Config r) p id gitSha)) "");
        [contradiction | reflexivity].
Qed.

(** C2. When the fetch of the remote configuration fails, the request is
    given up exactly when no global configuration path is set: then the
    answer is 200 with the fetch error and [ProcessMR] is not called.  With
    a global path set (and no file returned) the global configuration is
    passed to [ProcessMR]. *)
Theorem fetch_error_fatal_without_fallback
    (ctx : Context Config) (path sha : string) (file : option io_Reader) (err : error) :
  In (CallGetRemoteConfig ctx path sha) run ->
  GetRemoteConfig _ client ctx path sha = (file, Some err) ->
  (GlobalConfigFilePath _ ctx = "" ->
   response run = mkResponse (Some StatusOK) [errorText err]
   /\ (forall c cfg full, ~ In (CallProcessMR c cfg full) run))
  /\ (GlobalConfigFilePath _ ctx <> "" ->
      (exists cfg full, In (CallProcessMR ctx cfg full) run)
      /\ (file = None ->
          In (CallGlobalConfigFromContext ctx) run
          /\ (exists full, In (CallProcessMR ctx (GlobalConfigFromContext _ ctx) full) run)
          /\ (forall c cfg full, In (CallProcessMR c cfg full) run ->
              cfg = GlobalConfigFromContext _ ctx))).
Proof.
  intros Hreach Hfetch.
  destruct (reaches_config_inv ctx path sha Hreach) as (body & full & Hrun).
  cbv zeta in Hrun. rewrite Hfetch in Hrun. cbn [fst snd] in Hrun.
  split; intros Hg.
  - rewrite Hg in Hrun. cbn [String.eqb] in Hrun. rewrite Hrun.
    split; [reflexivity |].
    intros c cfg full' Hin. cbn in Hin. intuition discriminate.
  - apply String.eqb_neq in Hg. rewrite Hg in Hrun.
    split.
    + eexists; eexists. rewrite Hrun. apply in_or_app. right. right. right. left. reflexivity.
    + intros ->. cbn [fst snd] in Hrun. rewrite Hrun. repeat split.
      * apply in_or_app. right. right. left. reflexivity.
      * eexists. apply in_or_app. right. right. right. left. reflexivity.
      * intros c cfg full' Hin. apply in_app_or in Hin.
        destruct (ProcessMR _ _ _ _); cbn in Hin; intuition (try discriminate; try congruence).
Qed.

(** C3. When a remote file was fetched, what [ParseFile] gives for it is
    passed to [ProcessMR] whether or not parsing failed, and the global
    configuration is not consulted; so a file that fails to parse (no
    configuration, an error) sends a nil configuration to [ProcessMR]. *)
Theorem parse_failure_not_fatal
    (ctx : Context Config) (path sha : string) (file : io_Reader) :
  In (CallGetRemoteConfig ctx path sha) run ->
  GetRemoteConfig _ client ctx path sha = (Some file, None) ->
  (exists full, In (CallProcessMR ctx (fst (ParseFile file)) full) run)
  /\ (forall c cfg full, In (CallProcessMR c cfg full) run -> cfg = fst (ParseFile file))
  /\ (forall c, ~ In (CallGlobalConfigFromContext c) run)
  /\ (forall e, ParseFile file = (None, Some e) ->
      (exists full, In (CallProcessMR ctx None full) run)
      /\ (forall c cfg full, In (CallProcessMR c cfg full) run -> cfg = None)).
Proof.
  intros Hreach Hfetch.
  destruct (reaches_config_inv ctx path sha Hreach) as (body & full & Hrun).
  cbv zeta in Hrun. rewrite Hfetch in Hrun. cbn [fst snd] in Hrun.
  assert (Hcall : In (CallProcessMR ctx (fst (ParseFile file)) full) run).
  { rewrite Hrun. apply in_or_app. right. right. right. left. reflexivity. }
  assert (Honly : forall c cfg full', In (CallProcessMR c cfg full') run ->
                                      cfg = fst (ParseFile file)).
  { intros c cfg full' Hin. rewrite Hrun in Hin. apply in_app_or in Hin.
    destruct (ProcessMR _ _ _ _); cbn in Hin; intuition (try discriminate; try congruence). }
  split; [eexists; exact Hcall |].
  split; [exact Honly |].
  split.
  - intros c Hin. rewrite Hrun in Hin. apply in_app_or in Hin.
    destruct (ProcessMR _ _ _ _); cbn in Hin; intuition discriminate.
  - intros e Hparse. rewrite Hparse in *. cbn [fst] in *.
    split; [eexists; exact Hcall | exact Honly].
Qed.

(** C8. A run that reaches [ProcessMR] answers 200: with the text of the
    error if [ProcessMR] returns one, with the body OK otherwise. *)
Theorem processing_outcome (ctx : Context Config) (cfg : option Config) (full : any) :
  In (CallProcessMR ctx cfg full) run ->
  (forall e, ProcessMR ctx client cfg full = Some e ->
     response run = mkResponse (Some StatusOK) [errorText e])
  /\ (ProcessMR ctx client cfg full = None ->
      response run = mkResponse (Some StatusOK) [bytes "OK"]).
Proof.
  intros Hin.
  by_path; try solve [exfalso; no_such_call].
  assert (Heq : ctx = pipelineContext (rContext Config r) p id gitSha
                /\ full = full0
                /\ cfg = snd (match file with
                              | Some f => (CallParseFile f, fst (ParseFile f))
                              | None =>
                                  (CallGlobalConfigFromContext
                                     (pipelineContext (rContext Config r) p id gitSha),
                                   GlobalConfigFromContext _
                                     (pipelineContext (rContext Config r) p id gitSha))
                              end)).
  { destruct file; destruct (ProcessMR _ _ _ _);
      cbn [In app decoded fst snd] in *; intuition (try discriminate; try congruence). }
  destruct Heq as (-> & -> & ->). clear Hin.
  split; [intros e He | intros He]; rewrite He; destruct file; reflexivity.
Qed.

(** *** Further properties of a run *)

(** Bring the facts of the path taken and the hypotheses together. *)
Ltac align :=
  unfold secretAccepted, jsonContentType in *;
  repeat match goal with
         | H1 : ReadAll _ r = _, H2 : ReadAll _ r = _ |- _ =>
             rewrite H1 in H2; inversion H2; subst; clear H2
         | H1 : DecodePayload ?b = _, H2 : DecodePayload ?b = _ |- _ =>
             rewrite H1 in H2; inversion H2; subst; clear H2
         | H1 : DecodeAny ?b = _, H2 : DecodeAny ?b = _ |- _ =>
             rewrite H1 in H2; inversion H2; subst; clear H2
         | H1 : eventTarget ?p = _, H2 : eventTarget ?p = _ |- _ =>
             rewrite H1 in H2; inversion H2; subst; clear H2
         | H : DecodePayload "" = inr _ |- _ => rewrite DecodePayload_empty in H; discriminate H
         end;
  try solve [exfalso; intuition congruence].

(** X1. When reading the body fails, the answer is 400 with the read error,
    and the body is not decoded. *)
Theorem read_error_answers_400 (body : string) (err : error) :
  secretAccepted webhookSecret r ->
  jsonContentType r ->
  ReadAll _ r = (body, Some err) ->
  run = [CallReadAll; CallErrHandler ctx0 StatusBadRequest err]
  /\ response run = mkResponse (Some StatusBadRequest) [errorText err].
Proof.
  intros Hsec Hct Hread. by_path; align. split; reflexivity.
Qed.

(** X2. A body that is not empty and does not decode into the payload is
    answered 400 with the decode error, wrapped; nothing else is called and
    nothing else is written. *)
Theorem malformed_body_answers_400 (body : string) (err : error) :
  secretAccepted webhookSecret r ->
  jsonContentType r ->
  ReadAll _ r = (body, None) ->
  body <> "" ->
  DecodePayload body = inl err ->
  let wrapped := fmt_Errorf_w "could not decode POST body into Payload struct: " err in
  run = [CallReadAll; CallDecodePayload body; CallErrHandler ctx0 StatusBadRequest wrapped]
  /\ response run = mkResponse (Some StatusBadRequest) [errorText wrapped].
Proof.
  intros Hsec Hct Hread Hbody Hdec wrapped. by_path; align. split; reflexivity.
Qed.

(** X3. When the second, untyped decode fails, the answer is 500 with that
    error as it is, and neither the client nor [ProcessMR] is called. *)
Theorem second_decode_failure_answers_500
    (body : string) (p : GitlabWebhookPayload) (err : error) :
  secretAccepted webhookSecret r ->
  jsonContentType r ->
  ReadAll _ r = (body, None) ->
  DecodePayload body = inr p ->
  EventType p = "merge_request" \/ EventType p = "note" ->
  DecodeAny body = inl err ->
  response run = mkResponse (Some StatusInternalServerError) [errorText err]
  /\ (forall c path sha, ~ In (CallGetRemoteConfig c path sha) run)
  /\ (forall c cfg full, ~ In (CallProcessMR c cfg full) run).
Proof.
  intros Hsec Hct Hread Hdec Hkind Hany.
  assert (Htarget : exists id gitSha, eventTarget p = Some (id, gitSha)).
  { destruct Hkind as [Hk | Hk];
      [rewrite (eventTarget_merge_request p Hk) | rewrite (eventTarget_note p Hk)];
      eexists; eexists; reflexivity. }
  destruct Htarget as (id0 & sha0 & Htarget).
  by_path; align.
  repeat split; intros; cbn; intuition discriminate.
Qed.

(** X4. When the client returns neither a file nor an error, the global
    configuration of the context is what [ProcessMR] gets, and nothing is
    parsed. *)
Theorem no_file_takes_global (ctx : Context Config) (path sha : string) :
  In (CallGetRemoteConfig ctx path sha) run ->
  GetRemoteConfig _ client ctx path sha = (None, None) ->
  In (CallGlobalConfigFromContext ctx) run
  /\ (exists full, In (CallProcessMR ctx (GlobalConfigFromContext _ ctx) full) run)
  /\ (forall f, ~ In (CallParseFile f) run).
Proof.
  intros Hreach Hfetch.
  destruct (reaches_config_inv ctx path sha Hreach) as (body & full & Hrun).
  cbv zeta in Hrun. rewrite Hfetch in Hrun. cbn [fst snd] in Hrun. rewrite Hrun.
  split; [| split].
  - apply in_or_app. right. right. left. reflexivity.
  - exists full. apply in_or_app. right. right. right. left. reflexivity.
  - intros f Hin. apply in_app_or in Hin.
    destruct (ProcessMR _ _ _ _); cbn in Hin; intuition discriminate.
Qed.


(** X6. Once the client has been asked for the remote configuration the
    answer is 200, whatever happens afterwards. *)
Theorem client_call_answers_200 (ctx : Context Config) (path sha : string) :
  In (CallGetRemoteConfig ctx path sha) run ->
  statusCode (response run) = Some StatusOK.
Proof.
  intros Hreach.
  destruct (reaches_config_inv ctx path sha Hreach) as (body & full & Hrun).
  cbv zeta in Hrun. rewrite Hrun.
  repeat match goal with
         | |- context [match ?x with _ => _ end] => destruct x
         | |- context [if ?x then _ else _] => destruct x
         end; reflexivity.
Qed.

Lemma inOrder_spec (earlier later : event Config -> bool) (tr : list (event Config)) :
  forall seen, inOrder earlier later seen tr = true ->
  forall l1 e l2, tr = (l1 ++ e :: l2)%list -> later e = true ->
  seen = true \/ existsb earlier l1 = true.
Proof.
  induction tr as [| x tr' IH]; intros seen H l1 e l2 Heq He.
  - destruct l1; discriminate.
  - cbn [inOrder] in H. apply andb_true_iff in H as [Hx Hrest].
    destruct l1 as [| y l1']; cbn [app] in Heq; injection Heq as -> ->.
    + rewrite He in Hx. left. exact Hx.
    + destruct (IH _ Hrest l1' e l2 eq_refl He) as [Hseen | Hex].
      * apply orb_true_iff in Hseen as [Hs | Hy]; [left; exact Hs |].
        right. cbn [existsb]. rewrite Hy. reflexivity.
      * right. cbn [existsb]. rewrite Hex. apply orb_true_r.
Qed.

(** X7. A run reads the body at most once, asks the client at most once and
    calls [ProcessMR] at most once; it resolves a configuration (by parsing or
    from the context) exactly when it calls [ProcessMR]; and the order is
    kept: before a call of [ProcessMR] the client has been asked and a
    configuration has been resolved, and before a configuration is resolved
    the client has been asked. *)
Theorem stages_at_most_once :
  (calls isRead run <= 1)%nat
  /\ (calls isFetch run <= 1)%nat
  /\ (calls isProcess run <= calls isFetch run)%nat
  /\ calls isResolve run = calls isProcess run
  /\ (forall l1 e l2, run = (l1 ++ e :: l2)%list -> isProcess e = true ->
      existsb isFetch l1 = true /\ existsb isResolve l1 = true)
  /\ (forall l1 e l2, run = (l1 ++ e :: l2)%list -> isResolve e = true ->
      existsb isFetch l1 = true).
Proof.
  assert (Hcount : (calls isRead run <= 1)%nat
                   /\ (calls isFetch run <= 1)%nat
                   /\ (calls isProcess run <= calls isFetch run)%nat
                   /\ calls isResolve run = calls isProcess run).
  { unfold calls.
    by_path; unfold decoded;
      repeat match goal with
             | |- context [match ?x with _ => _ end] => destruct x
             end;
      cbn; repeat split; lia. }
  assert (Horder : inOrder isFetch isProcess false run = true
                   /\ inOrder isResolve isProcess false run = true
                   /\ inOrder isFetch isResolve false run = true).
  { by_path; unfold decoded;
      repeat match goal with
             | |- context [match ?x with _ => _ end] => destruct x
             end;
      cbn; repeat split; reflexivity. }
  destruct Hcount as (H1 & H2 & H3 & H4). destruct Horder as (Hfp & Hrp & Hfr).
  split; [exact H1 |]. split; [exact H2 |]. split; [exact H3 |]. split; [exact H4 |].
  split.
  - intros l1 e l2 Heq He. split.
    + destruct (inOrder_spec _ _ _ _ Hfp l1 e l2 Heq He) as [? | ?];
        [discriminate | assumption].
    + destruct (inOrder_spec _ _ _ _ Hrp l1 e l2 Heq He) as [? | ?];
        [discriminate | assumption].
  - intros l1 e l2 Heq He.
    destruct (inOrder_spec _ _ _ _ Hfr l1 e l2 Heq He) as [? | ?];
      [discriminate | assumption].
Qed.

(** X8. The empty body is the one case in which two error texts are
    written; every other run writes exactly once. *)
Theorem one_answer_unless_empty_body :
  (secretAccepted webhookSecret r -> jsonContentType r -> ReadAll _ r = ("", None) ->
   written (response run)
   = [errorText emptyBodyError;
      errorText (fmt_Errorf_w "could not decode POST body into Payload struct: " io_EOF)])
  /\ (length (written (response run)) <> 1%nat ->
      secretAccepted webhookSecret r /\ jsonContentType r /\ ReadAll _ r = ("", None)).
Proof.
  split.
  - intros Hsec Hct Hread. by_path; align. reflexivity.
  - by_path;
      repeat match goal with
             | |- context [match ?x with _ => _ end] => destruct x
             end;
      cbn; intros Hlen; try (exfalso; apply Hlen; reflexivity).
    repeat split; assumption.
Qed.

(** X10. The remote configuration is asked for at the path configured in the
    request's context and at the last commit the event names. *)
Theorem fetch_pinned_to_event_commit (ctx : Context Config) (path sha : string) :
  In (CallGetRemoteConfig ctx path sha) run ->
  path = ConfigFilePath _ (rContext _ r)
  /\ exists body p,
       ReadAll _ r = (body, None)
       /\ DecodePayload body = inr p
       /\ ((EventType p = "merge_request" /\ sha = ID (LastCommit (ObjectAttributes p)))
           \/ (EventType p = "note" /\ sha = ID (LastCommit (MergeRequest p)))).
Proof.
  intros Hin.
  by_path; try solve [exfalso; no_such_call].
  all: assert (Heq : path = ConfigFilePath _ (pipelineContext (rContext Config r) p id gitSha)
                     /\ sha = CommitSHA _ (pipelineContext (rContext Config r) p id gitSha))
         by (try destruct file; try destruct (ProcessMR _ _ _ _);
             cbn [In app decoded fst snd] in Hin;
             intuition (try discriminate; try congruence)).
  all: destruct Heq as [-> ->]; cbn [pipelineContext slogctx_With WithMergeRequestID
         WithCommitSHA WithProjectID ConfigFilePath CommitSHA]; split; [reflexivity |].
  all: exists body, p; split; [assumption |]; split; [assumption |].
  all: match goal with H : eventTarget _ = _ |- _ => unfold eventTarget in H end.
  all: destruct (String.eqb_spec (EventType p) "merge_request") as [Hk | _];
         [ left; split; [exact Hk | congruence] | ].
  all: destruct (String.eqb_spec (EventType p) "note") as [Hk | _];
         [ right; split; [exact Hk | congruence] | discriminate ].
Qed.

(** X11. The body is read exactly when the secret check and the
    content-type check both let the request through. *)
Theorem body_read_iff_checks_pass :
  In CallReadAll run <-> secretAccepted webhookSecret r /\ jsonContentType r.
Proof.
  by_path; (split; [intros Hin | intros [Hsec Hct]]).
  all: try solve [split; assumption].
  all: try solve [exfalso; unfold secretAccepted, jsonContentType in *;
                  cbn in *; intuition (try discriminate; try congruence)].
  all: cbn; auto.
Qed.

(** X12. A body of nothing but spaces is answered 400: its decode ends with
    [io.EOF], and the second decode is not tried. *)
Theorem blank_body_answers_400 (body : string) :
  secretAccepted webhookSecret r ->
  jsonContentType r ->
  ReadAll _ r = (body, None) ->
  nonSpace body = false ->
  statusCode (response run) = Some StatusBadRequest
  /\ In (CallErrHandler ctx0 StatusBadRequest
           (fmt_Errorf_w "could not decode POST body into Payload struct: " io_EOF)) run
  /\ (forall b, ~ In (CallDecodeAny b) run).
Proof.
  intros Hsec Hct Hread Hblank.
  assert (Hdec : DecodePayload body = inl io_EOF).
  { unfold DecodePayload. rewrite (readValue_blank body Hblank). reflexivity. }
  by_path; align.
  - repeat split; [cbn; tauto | intros b Hin; cbn in Hin; intuition discriminate].
  - repeat split; [cbn; tauto | intros b Hin; cbn in Hin; intuition discriminate].
Qed.

(** X13. A body whose value is [null] is not a decode error: it decodes to
    the zero payload, whose event type is empty, and is answered 500. *)
Theorem null_body_answers_500 (body : string) :
  secretAccepted webhookSecret r ->
  jsonContentType r ->
  ReadAll _ r = (body, None) ->
  readValue body = inr JNull ->
  DecodePayload body = inr zeroPayload
  /\ response run
     = mkResponse (Some StatusInternalServerError)
         [errorText (errors_New "unknown event type: ")].
Proof.
  intros Hsec Hct Hread Hnull.
  assert (Hdec : DecodePayload body = inr zeroPayload).
  { unfold DecodePayload. rewrite Hnull. reflexivity. }
  split; [exact Hdec |].
  by_path; align; try discriminate.
  reflexivity.
Qed.

(** X14. What [ProcessMR] is handed: the untyped decode of the body that was
    read, in the context the client was asked in, which names the project
    of the payload and is labelled with its event type. *)
Theorem processing_inputs (ctx : Context Config) (cfg : option Config) (full : any) :
  In (CallProcessMR ctx cfg full) run ->
  exists body p,
    ReadAll _ r = (body, None)
    /\ DecodePayload body = inr p
    /\ DecodeAny body = inr full
    /\ ProjectID _ ctx = PathWithNamespace (Project p)
    /\ logAttrs _ ctx = (logAttrs _ (rContext _ r) ++ [("event_type", EventType p)])%list
    /\ In (CallGetRemoteConfig ctx (ConfigFilePath _ ctx) (CommitSHA _ ctx)) run.
Proof.
  intros Hin.
  by_path; try solve [exfalso; no_such_call].
  assert (Heq : ctx = pipelineContext (rContext Config r) p id gitSha /\ full = full0).
  { destruct file; destruct (ProcessMR _ _ _ _);
      cbn [In app decoded fst snd] in *; intuition (try discriminate; try congruence). }
  destruct Heq as [-> ->].
  exists body, p. repeat split; try assumption; try reflexivity.
  apply in_or_app. right. left. reflexivity.
Qed.

(** X18. The plain OK body is written only after [ProcessMR] has been called
    and has returned no error. *)
Theorem ok_means_processed :
  In (CallWrite "OK") run ->
  exists ctx cfg full,
    In (CallProcessMR ctx cfg full) run
    /\ ProcessMR ctx client cfg full = None
    /\ response run = mkResponse (Some StatusOK) [bytes "OK"].
Proof.
  intros Hin.
  by_path; try solve [exfalso; no_such_call].
  match goal with
  | |- context [ProcessMR ?c client ?g ?f] =>
      exists c, g, f; destruct (ProcessMR c client g f) eqn:Hp
  end.
  - exfalso. destruct file; cbn [In app decoded fst snd] in Hin;
      intuition (try discriminate; try congruence).
  - split; [| split; [reflexivity |]].
    + apply in_or_app. right. right. right. left. reflexivity.
    + destruct file; reflexivity.
Qed.

(** X9. Without a configured secret the token header plays no part: setting
    it to anything leaves the run as it is. *)
Theorem token_ignored_without_secret
    (h : gmap string (list string)) (ctx : Context Config)
    (read : string * option error) (values : list string) :
  handlerFunc ParseFile ProcessMR client "" (mkRequest (<["X-Gitlab-Token" := values]> h) ctx read)
  = handlerFunc ParseFile ProcessMR client "" (mkRequest h ctx read).
Proof.
  assert (Hct : Header_Get (<["X-Gitlab-Token" := values]> h) "Content-Type"
                = Header_Get h "Content-Type").
  { unfold Header_Get. rewrite lookup_insert_ne; [reflexivity | discriminate]. }
  unfold handlerFunc, when. cbn [String.length Nat.ltb Nat.leb Header rContext ReadAll].
  rewrite Hct. reflexivity.
Qed.


End Run.

(* ===================================================================== *)
(** ** The properties at sample requests *)
(* ===================================================================== *)

Import Sample.

Lemma Itoa_inj (a b : Z) : Itoa a = Itoa b -> a = b.
Proof.
  unfold Itoa. intros H.
  apply DecimalZ.to_int_inj.
  assert (Hs : Some (Z.to_int a) = Some (Z.to_int b))
    by (rewrite <- !NilEmpty.isi; rewrite H; reflexivity).
  congruence.
Qed.

Example Itoa_samples : Itoa 7 = "7" /\ Itoa 0 = "0" /\ Itoa (-12) = "-12".
Proof. repeat split. Qed.

Example decode_note : DecodePayload noteBody = inr notePayload.
Proof. reflexivity. Qed.

Example decode_ignores_what_follows :
  DecodePayload (noteBody +:+ " trailing text") = inr notePayload.
Proof. reflexivity. Qed.

Example decode_folds_keys :
  DecodePayload (js "{'Event_Type':'note','PROJECT':{'Path_With_Namespace':'g/p'}}")
  = inr (mkPayload "note" (mkProject "g/p")
           (mkMergeRequest 0 (mkCommit "")) (mkMergeRequest 0 (mkCommit ""))).
Proof. reflexivity. Qed.

Example decode_type_mismatch :
  DecodePayload (js "{'event_type':5}") = inl (json_UnmarshalTypeError "number" "event_type")
  /\ DecodePayload (js "{'object_attributes':{'iid':1.5}}")
     = inl (json_UnmarshalTypeError "number 1.5" "iid")
  /\ DecodePayload (js "[]") = inl (json_UnmarshalTypeError "array" "")
  /\ DecodePayload (js "{'event_type':") = inl io_ErrUnexpectedEOF
  /\ DecodePayload "   " = inl io_EOF.
Proof. repeat split. Qed.

Example float64_range :
  float64Overflows "1.7976931348623157e308" = false
  /\ float64Overflows "1.7976931348623159e308" = true
  /\ float64Overflows "1e999" = true
  /\ float64Overflows "-1E+400" = true
  /\ float64Overflows "1e-999" = false.
Proof. repeat split; vm_compute; reflexivity. Qed.

(** A full run: a note event, the file found and parsed, [ProcessMR] happy. *)
Example run_note :
  let ctx := noteContext ctxLocal in
  handlerFunc parseOk processOk clientFound "s3"
    (request ctxLocal "s3" "application/json" noteBody)
  = ([CallReadAll; CallDecodePayload noteBody; CallInfo ctx "GET /gitlab webhook";
      CallDecodeAny noteBody; CallGetRemoteConfig ctx ".scm-engine.yml" "abc";
      CallParseFile "label: []";
      CallProcessMR ctx (Some "label: []")
        (map_any
           [("event_type", string_any "note");
            ("merge_request",
             map_any [("iid", float64_any "7");
                      ("last_commit", map_any [("id", string_any "abc")])]);
            ("project", map_any [("path_with_namespace", string_any "g/p")])]);
      CallWriteHeader StatusOK; CallWrite "OK"],
     Some tt).
Proof. vm_compute. reflexivity. Qed.

(** The 500 answer of the second decode can be reached. *)
Example run_overflow :
  let ctx := pipelineContext ctxLocal
               (mkPayload "note" (mkProject "")
                  (mkMergeRequest 0 (mkCommit "")) (mkMergeRequest 7 (mkCommit "abc")))
               "7" "abc" in
  trace (handlerFunc parseOk processOk clientFound ""
           (request ctxLocal "" "application/json" overflowBody))
  = [CallReadAll; CallDecodePayload overflowBody; CallInfo ctx "GET /gitlab webhook";
     CallDecodeAny overflowBody;
     CallErrHandler ctx StatusInternalServerError (json_UnmarshalTypeError "number 1e999" "")].
Proof. vm_compute. reflexivity. Qed.

(** The empty body, sent with the right token and content type. *)
Lemma empty_body_continues_witness :
  let r := request ctxLocal "s3" "application/json" "" in
  (exists rest,
     trace (handlerFunc parseOk processOk clientFound "s3" r)
     = ([CallReadAll;
         CallErrHandler ctxLocal StatusBadRequest
           (errors_New "The POST body is empty; expected a JSON payload");
         CallDecodePayload ""] ++ rest)%list)
  /\ statusCode (response (trace (handlerFunc parseOk processOk clientFound "s3" r)))
     = Some StatusBadRequest.
Proof.
  apply (empty_body_continues string parseOk processOk clientFound "s3"
           (request ctxLocal "s3" "application/json" ""));
    [right; reflexivity | reflexivity | reflexivity].
Defined.

Lemma empty_body_stops_witness :
  trace (handlerFunc parseOk processOk clientFound "s3"
           (request ctxLocal "s3" "application/json" ""))
  = [CallReadAll;
     CallErrHandler ctxLocal StatusBadRequest emptyBodyError;
     CallDecodePayload "";
     CallErrHandler ctxLocal StatusBadRequest
       (fmt_Errorf_w "could not decode POST body into Payload struct: " io_EOF)].
Proof.
  exact (proj2 (proj2 (proj2
           (empty_body_stops string parseOk processOk clientFound "s3"
              (request ctxLocal "s3" "application/json" "") eq_refl)))
           (or_intror eq_refl) eq_refl eq_refl).
Defined.

(** The fetch fails: fatal without a global path, the global configuration
    with one. *)
Lemma fetch_error_fatal_without_fallback_witness :
  response (trace (handlerFunc parseOk processOk clientMissing "s3"
                     (request ctxLocal "s3" "application/json" noteBody)))
  = mkResponse (Some StatusOK) [errorText fetchError]
  /\ exists full,
       In (CallProcessMR (noteContext ctxGlobal) (Some "global rules") full)
          (trace (handlerFunc parseOk processOk clientMissing "s3"
                    (request ctxGlobal "s3" "application/json" noteBody))).
Proof.
  split.
  - refine (proj1 (proj1 (fetch_error_fatal_without_fallback string parseOk processOk
                            clientMissing "s3"
                            (request ctxLocal "s3" "application/json" noteBody)
                            (noteContext ctxLocal) ".scm-engine.yml" "abc" None fetchError
                            _ eq_refl) eq_refl)).
    vm_compute. do 4 right. left. reflexivity.
  - refine (proj1 (proj2 (proj2 (proj2 (fetch_error_fatal_without_fallback string parseOk
                            processOk clientMissing "s3"
                            (request ctxGlobal "s3" "application/json" noteBody)
                            (noteContext ctxGlobal) ".scm-engine.yml" "abc" None fetchError
                            _ eq_refl) _) eq_refl))).
    + vm_compute. do 4 right. left. reflexivity.
    + discriminate.
Defined.

(** The file is there but does not parse. *)
Lemma parse_failure_not_fatal_witness :
  exists full,
    In (CallProcessMR (noteContext ctxGlobal) None full)
       (trace (handlerFunc parseFails processOk clientFound "s3"
                 (request ctxGlobal "s3" "application/json" noteBody))).
Proof.
  refine (proj1 (proj2 (proj2 (proj2
            (parse_failure_not_fatal string parseFails processOk clientFound "s3"
               (request ctxGlobal "s3" "application/json" noteBody)
               (noteContext ctxGlobal) ".scm-engine.yml" "abc" "label: []" _ eq_refl)))
            parseError eq_refl)).
  vm_compute. do 4 right. left. reflexivity.
Defined.


Lemma secret_check_witness :
  trace (handlerFunc parseOk processOk clientFound "s3"
           (request ctxLocal "guess" "application/json" noteBody))
  = [CallErrHandler ctxLocal StatusForbidden
       (errors_New "Missing or invalid X-Gitlab-Token header")].
Proof.
  refine (proj1 (proj1 (secret_check string parseOk processOk clientFound "s3"
                          (request ctxLocal "guess" "application/json" noteBody)) _ _));
    discriminate.
Defined.

Lemma unknown_event_type_witness :
  response (trace (handlerFunc parseOk processOk clientFound "s3"
                     (request ctxLocal "s3" "application/json" pushBody)))
  = mkResponse (Some StatusInternalServerError)
      [errorText (errors_New "unknown event type: push")].
Proof.
  refine (proj1 (proj2 (unknown_event_type string parseOk processOk clientFound "s3"
                          (request ctxLocal "s3" "application/json" pushBody)
                          pushBody pushPayload
                          (or_intror eq_refl) eq_refl eq_refl eq_refl _ _)));
    discriminate.
Defined.

Lemma content_type_check_witness :
  response (trace (handlerFunc parseOk processOk clientFound "s3"
                     (request ctxLocal "s3" "text/plain" noteBody)))
  = mkResponse (Some StatusNotAcceptable)
      [errorText (errors_New "The request is not using Content-Type: application/json")].
Proof.
  refine (proj2 (proj1 (proj2 (content_type_check string parseOk processOk clientFound "s3"
                                 (request ctxLocal "s3" "text/plain" noteBody) _))
                   (or_intror eq_refl))).
  discriminate.
Defined.

(** C7 as stated fails: with a wrong token and a wrong content type the
    answer is 403, not 406. *)
Lemma content_type_check_counterexample :
  let r := request ctxLocal "guess" "text/plain" noteBody in
  Header_Get (Header _ r) "Content-Type" <> "application/json"
  /\ statusCode (response (trace (handlerFunc parseOk processOk clientFound "s3" r)))
     = Some StatusForbidden
  /\ statusCode (response (trace (handlerFunc parseOk processOk clientFound "s3" r)))
     <> Some StatusNotAcceptable.
Proof. repeat split; discriminate. Qed.

Lemma processing_outcome_witness :
  response (trace (handlerFunc parseOk processFails clientFound "s3"
                     (request ctxLocal "s3" "application/json" noteBody)))
  = mkResponse (Some StatusOK) [errorText processError]
  /\ response (trace (handlerFunc parseOk processOk clientFound "s3"
                        (request ctxLocal "s3" "application/json" noteBody)))
     = mkResponse (Some StatusOK) [bytes "OK"].
Proof.
  split.
  - refine (proj1 (processing_outcome string parseOk processFails clientFound "s3"
                     (request ctxLocal "s3" "application/json" noteBody)
                     (noteContext ctxLocal) (Some "label: []") _ _) processError eq_refl).
    vm_compute. do 6 right. left. reflexivity.
  - refine (proj2 (processing_outcome string parseOk processOk clientFound "s3"
                     (request ctxLocal "s3" "application/json" noteBody)
                     (noteContext ctxLocal) (Some "label: []") _ _) eq_refl).
    vm_compute. do 6 right. left. reflexivity.
Defined.


(* ===================================================================== *)
(** ** The further properties at sample requests *)
(* ===================================================================== *)

Import SampleMore.

Lemma ParseInt_Itoa_witness : ParseInt (Itoa (-12)) = Some (-12).
Proof. apply ParseInt_Itoa. unfold int64. lia. Defined.

Lemma decoded_IID_int64_witness :
  int64 (IID (ObjectAttributes notePayload)) /\ int64 (IID (MergeRequest notePayload)).
Proof. apply (decoded_IID_int64 noteBody). reflexivity. Defined.

Lemma trailing_bytes_ignored_witness :
  DecodePayload (noteBody +:+ "}] not JSON") = inr notePayload
  /\ DecodeAny (noteBody +:+ "}] not JSON") = DecodeAny noteBody.
Proof. apply (trailing_bytes_ignored noteBody notePayload). reflexivity. Defined.

Lemma read_error_answers_400_witness :
  trace (handlerFunc parseOk processOk clientFound "s3" brokenRequest)
  = [CallReadAll; CallErrHandler ctxLocal StatusBadRequest readError]
  /\ response (trace (handlerFunc parseOk processOk clientFound "s3" brokenRequest))
     = mkResponse (Some StatusBadRequest) [errorText readError].
Proof.
  apply (read_error_answers_400 string parseOk processOk clientFound "s3" brokenRequest
           "{'eve" readError);
    [right; reflexivity | reflexivity | reflexivity].
Defined.

Lemma malformed_body_answers_400_witness :
  response (trace (handlerFunc parseOk processOk clientFound "s3"
                     (request ctxLocal "s3" "application/json" truncatedBody)))
  = mkResponse (Some StatusBadRequest)
      [errorText (fmt_Errorf_w "could not decode POST body into Payload struct: "
                    io_ErrUnexpectedEOF)].
Proof.
  refine (proj2 (malformed_body_answers_400 string parseOk processOk clientFound "s3"
                   (request ctxLocal "s3" "application/json" truncatedBody)
                   truncatedBody io_ErrUnexpectedEOF
                   (or_intror eq_refl) eq_refl eq_refl _ eq_refl)).
  discriminate.
Defined.

Lemma second_decode_failure_answers_500_witness :
  response (trace (handlerFunc parseOk processOk clientFound "s3"
                     (request ctxLocal "s3" "application/json" overflowBody)))
  = mkResponse (Some StatusInternalServerError)
      [errorText (json_UnmarshalTypeError "number 1e999" "")].
Proof.
  refine (proj1 (second_decode_failure_answers_500 string parseOk processOk clientFound "s3"
                   (request ctxLocal "s3" "application/json" overflowBody)
                   overflowBody overflowPayload (json_UnmarshalTypeError "number 1e999" "")
                   (or_intror eq_refl) eq_refl eq_refl _ (or_intror eq_refl) _));
    vm_compute; reflexivity.
Defined.

Lemma no_file_takes_global_witness :
  exists full,
    In (CallProcessMR (noteContext ctxGlobal) (Some "global rules") full)
       (trace (handlerFunc parseOk processOk clientSilent "s3"
                 (request ctxGlobal "s3" "application/json" noteBody))).
Proof.
  refine (proj1 (proj2 (no_file_takes_global string parseOk processOk clientSilent "s3"
                          (request ctxGlobal "s3" "application/json" noteBody)
                          (noteContext ctxGlobal) ".scm-engine.yml" "abc" _ eq_refl))).
  vm_compute. do 4 right. left. reflexivity.
Defined.

Lemma client_call_answers_200_witness :
  statusCode (response (trace (handlerFunc parseFails processFails clientFound "s3"
                                 (request ctxLocal "s3" "application/json" noteBody))))
  = Some StatusOK.
Proof.
  refine (client_call_answers_200 string parseFails processFails clientFound "s3"
            (request ctxLocal "s3" "application/json" noteBody)
            (noteContext ctxLocal) ".scm-engine.yml" "abc" _).
  vm_compute. do 4 right. left. reflexivity.
Defined.

Lemma one_answer_unless_empty_body_witness :
  written (response (trace (handlerFunc parseOk processOk clientFound "s3"
                              (request ctxLocal "s3" "application/json" ""))))
  = [errorText emptyBodyError;
     errorText (fmt_Errorf_w "could not decode POST body into Payload struct: " io_EOF)].
Proof.
  apply (proj1 (one_answer_unless_empty_body string parseOk processOk clientFound "s3"
                  (request ctxLocal "s3" "application/json" "")));
    [right; reflexivity | reflexivity | reflexivity].
Defined.

Lemma fetch_pinned_to_event_commit_witness :
  let r := request ctxLocal "s3" "application/json" mergeRequestBody in
  ".scm-engine.yml" = ConfigFilePath _ (rContext _ r)
  /\ exists body p,
       ReadAll _ r = (body, None)
       /\ DecodePayload body = inr p
       /\ ((EventType p = "merge_request" /\ "f00" = ID (LastCommit (ObjectAttributes p)))
           \/ (EventType p = "note" /\ "f00" = ID (LastCommit (MergeRequest p)))).
Proof.
  refine (fetch_pinned_to_event_commit string parseOk processOk clientFound "s3"
            (request ctxLocal "s3" "application/json" mergeRequestBody)
            (pipelineContext ctxLocal mergeRequestPayload "12" "f00")
            ".scm-engine.yml" "f00" _).
  vm_compute. do 4 right. left. reflexivity.
Defined.

Lemma body_read_iff_checks_pass_witness :
  In CallReadAll (trace (handlerFunc parseOk processOk clientFound "s3"
                           (request ctxLocal "s3" "application/json" noteBody))).
Proof.
  apply (proj2 (body_read_iff_checks_pass string parseOk processOk clientFound "s3"
                  (request ctxLocal "s3" "application/json" noteBody))).
  split; [right; reflexivity | reflexivity].
Defined.

Lemma blank_body_answers_400_witness :
  statusCode (response (trace (handlerFunc parseOk processOk clientFound "s3"
                                 (request ctxLocal "s3" "application/json" "   "))))
  = Some StatusBadRequest.
Proof.
  refine (proj1 (blank_body_answers_400 string parseOk processOk clientFound "s3"
                   (request ctxLocal "s3" "application/json" "   ") "   "
                   (or_intror eq_refl) eq_refl eq_refl eq_refl)).
Defined.

Lemma null_body_answers_500_witness :
  DecodePayload " null" = inr zeroPayload
  /\ response (trace (handlerFunc parseOk processOk clientFound "s3"
                        (request ctxLocal "s3" "application/json" " null")))
     = mkResponse (Some StatusInternalServerError)
         [errorText (errors_New "unknown event type: ")].
Proof.
  apply (null_body_answers_500 string parseOk processOk clientFound "s3"
           (request ctxLocal "s3" "application/json" " null") " null"
           (or_intror eq_refl) eq_refl eq_refl eq_refl).
Defined.

Lemma processing_inputs_witness :
  let r := request ctxLocal "s3" "application/json" noteBody in
  let ctx := noteContext ctxLocal in
  exists body p,
    ReadAll _ r = (body, None)
    /\ DecodePayload body = inr p
    /\ DecodeAny body
       = inr (map_any
                [("event_type", string_any "note");
                 ("merge_request",
                  map_any [("iid", float64_any "7");
                           ("last_commit", map_any [("id", string_any "abc")])]);
                 ("project", map_any [("path_with_namespace", string_any "g/p")])])
    /\ ProjectID _ ctx = PathWithNamespace (Project p)
    /\ logAttrs _ ctx = (logAttrs _ (rContext _ r) ++ [("event_type", EventType p)])%list
    /\ In (CallGetRemoteConfig ctx (ConfigFilePath _ ctx) (CommitSHA _ ctx))
         (trace (handlerFunc parseOk processOk clientFound "s3" r)).
Proof.
  refine (processing_inputs string parseOk processOk clientFound "s3"
            (request ctxLocal "s3" "application/json" noteBody)
            (noteContext ctxLocal) (Some "label: []") _ _).
  vm_compute. do 6 right. left. reflexivity.
Defined.

Lemma ok_means_processed_witness :
  exists ctx cfg full,
    In (CallProcessMR ctx cfg full)
       (trace (handlerFunc parseOk processOk clientFound "s3"
                 (request ctxLocal "s3" "application/json" noteBody)))
    /\ processOk ctx clientFound cfg full = None
    /\ response (trace (handlerFunc parseOk processOk clientFound "s3"
                          (request ctxLocal "s3" "application/json" noteBody)))
       = mkResponse (Some StatusOK) [bytes "OK"].
Proof.
  refine (ok_means_processed string parseOk processOk clientFound "s3"
            (request ctxLocal "s3" "application/json" noteBody) _).
  vm_compute. do 8 right. left. reflexivity.
Defined.

